(** * great_expectations: the profile-diff threshold metric and the
      experimental datasource / data asset / batch object model

    A shallow embedding of

    - [expect_profile_numeric_columns_diff_between_inclusive_threshold_range.py]
      (the [_pandas] metric of
      [DataProfilerProfileNumericColumnsDiffBetweenInclusiveThresholdRange]),
    - [great_expectations/experimental/datasources/interfaces.py]
      ([BatchRequest], [BatchSorter], [DataAsset], [Datasource], [Batch]),

    together with the properties of them that the specification states.

    Python dictionaries are insertion-ordered association lists ([PyDict]),
    exceptions are the [Raise] branch of [result], objects that are shared and
    mutated (datasources and data assets) live in a [Store] and are named by
    references. *)

From Stdlib Require Import ZArith QArith Bool List String Ascii Lia.
From Stdlib Require Import Permutation Sorted DecimalString OrderedTypeEx.
Import ListNotations.

Local Open Scope string_scope.
Local Open Scope list_scope.

(* ================================================================== *)
(** * Exceptions *)

(** The exception classes the two modules raise or let through. *)
Inductive exn : Type :=
| TypeError
| KeyError
| LookupError
| AttributeError
| IndexError
| NotImplementedError
| BatchRequestError
| BatchError
| EngineError (msg : string).

Inductive result (A : Type) : Type :=
| Ok (a : A)
| Raise (e : exn).

Arguments Ok {A} a.
Arguments Raise {A} e.

Definition bind {A B : Type} (c : result A) (k : A -> result B) : result B :=
  match c with
  | Ok a => k a
  | Raise e => Raise e
  end.

Notation "x <- c ;; k" := (bind c (fun x => k))
  (at level 61, c at next level, right associativity).

Lemma bind_Ok_inv {A B : Type} (c : result A) (k : A -> result B) (b : B) :
  bind c k = Ok b -> exists a, c = Ok a /\ k a = Ok b.
Proof.
  destruct c as [a|e]; simpl; intros H; [exists a; auto | discriminate].
Qed.

(* ================================================================== *)
(** * Python dictionaries with string keys *)

Module PyDict.

(** A [dict] keeps its entries in insertion order; a Python dictionary
    never holds a key twice ([wf]). *)
Definition dict (V : Type) : Type := list (string * V).

Section Ops.
Context {V : Type}.

Definition keys (d : dict V) : list string := map fst d.

(** [d.get(k)] *)
Fixpoint get (k : string) (d : dict V) : option V :=
  match d with
  | [] => None
  | (k', v) :: d' => if String.eqb k k' then Some v else get k d'
  end.

(** [k in d] *)
Definition contains (k : string) (d : dict V) : bool :=
  match get k d with Some _ => true | None => false end.

(** [d[k] = v]: an existing key keeps its position, a new key goes last. *)
Fixpoint set (k : string) (v : V) (d : dict V) : dict V :=
  match d with
  | [] => [(k, v)]
  | (k', v') :: d' =>
      if String.eqb k k' then (k', v) :: d' else (k', v') :: set k v d'
  end.

(** The dictionary left by [d.pop(k)]. *)
Fixpoint remove (k : string) (d : dict V) : dict V :=
  match d with
  | [] => []
  | (k', v') :: d' =>
      if String.eqb k k' then remove k d' else (k', v') :: remove k d'
  end.

Definition wf (d : dict V) : Prop := NoDup (keys d).

End Ops.

(** [x in l] for a list of strings. *)
Definition inb (x : string) (l : list string) : bool :=
  existsb (String.eqb x) l.

Fixpoint nodupb (l : list string) : bool :=
  match l with
  | [] => true
  | x :: l' => negb (inb x l') && nodupb l'
  end.

Definition wfb {V : Type} (d : dict V) : bool := nodupb (keys d).

End PyDict.

Import PyDict.

(** The loop [for k, x in items: acc[k] = f(k, x)], where [f] may raise: the
    first exception ends the loop. *)
Fixpoint for_items {A B : Type} (f : string -> A -> result B)
    (items : dict A) (acc : dict B) : result (dict B) :=
  match items with
  | [] => Ok acc
  | (k, x) :: rest =>
      r <- f k x ;;
      for_items f rest (set k r acc)
  end.

(** [rs] holds, key by key and in the same order, the results of [f] on
    [items]. *)
Definition results_of {A B : Type} (f : string -> A -> result B)
    (items : dict A) (rs : dict B) : Prop :=
  Forall2 (fun kx kr => fst kx = fst kr /\ f (fst kx) (snd kx) = Ok (snd kr))
    items rs.

(* ================================================================== *)
(** * The threshold-range metric of the profile diff *)

Module Profiler.

Local Open Scope Q_scope.

(** A statistic of the diff report: a number, or a string such as
    ["unchanged"]. *)
Inductive diff_value : Type :=
| DNum (v : Q)
| DStr (s : string).

(** [diff_val == "unchanged"] *)
Definition is_unchanged (diff_val : diff_value) : bool :=
  match diff_val with
  | DStr s => String.eqb s "unchanged"
  | DNum _ => false
  end.

(** The value of a statistic key of [limit_check_report_keys]:
    [{"lower": ..., "upper": ...}]. *)
Record bounds : Type := { lower : Q; upper : Q }.

(** One element of [profile_diff["data_stats"]]. *)
Record data_stat : Type :=
  { column_name : string;
    statistics : dict diff_value }.

(** The parts of the [data_profiler.profile_diff] metric that [_pandas]
    reads: [profile_schema] stands for
    [profile_diff["global_stats"]["profile_schema"][1]], a dictionary from
    column names to column indices. *)
Record profile_diff_t : Type :=
  { profile_schema : dict (list Z);
    data_stats : list data_stat }.

(** The [metrics] argument: the two resolved dependencies. *)
Record metrics_t : Type :=
  { profile_diff : profile_diff_t;
    profile_numeric_columns : list string }.

(** The [metric_value_kwargs] argument. *)
Record metric_value_kwargs_t : Type :=
  { limit_check_report_keys : dict (dict bounds);
    numerical_diff_statistics : list string }.

(** What [_pandas] stores under a statistic: [True], a marker string, or
    the record of an out-of-range value. *)
Inductive stat_report : Type :=
| StatTrue
| StatMsg (msg : string)
| StatOut (lower_bound upper_bound : Q) (value_found : diff_value).

(** What [_pandas] stores under a column: a marker string or the
    dictionary of its statistics. *)
Inductive column_report : Type :=
| ColMsg (msg : string)
| ColStats (stats : dict stat_report).

(** Modelled from the spec: [util.is_value_between_bounds], which is not
    among the sources. The spec has the delta checked against "an inclusive
    [lower, upper] range"; the call site passes [inclusive=True]. Comparing
    a number with a string raises [TypeError] in Python. *)
Definition is_value_between_bounds
    (value : diff_value) (lower_bound upper_bound : Q) (inclusive : bool)
  : result bool :=
  match value with
  | DNum v =>
      if inclusive
      then Ok (Qle_bool lower_bound v && Qle_bool v upper_bound)
      else Ok (negb (Qle_bool v lower_bound) && negb (Qle_bool upper_bound v))
  | DStr _ => Raise TypeError
  end.

(** One step of the loop over [all_keys] in the expansion of a wildcard:
    a key that the dictionary does not hold gets the value [general]. *)
Definition fill {V : Type} (general : V) (d : dict V) (key : string)
  : dict V :=
  if contains key d then d else set key general d.

(** Modelled from the spec: [util.replace_generic_operator_in_report_keys],
    which is not among the sources. The spec: wildcard keys ["*"] "apply
    default bounds broadly, with explicit keys taking precedence"; the
    docstring of the expectation: the value stored under ["*"] "will be
    applied to every column in the data that has no explicit key". The
    ["*"] entry is taken out and its value is stored under every key of
    [all_keys] that the dictionary does not hold. *)
Definition replace_generic_operator_in_report_keys {V : Type}
    (provided_keys_dict : dict V) (all_keys : list string) : dict V :=
  match get "*"%string provided_keys_dict with
  | None => provided_keys_dict
  | Some general =>
      fold_left (fill general) all_keys (remove "*"%string provided_keys_dict)
  end.

(** The loop over [data_stats] that finds the statistics of [col]
    (the empty dictionary when no element names the column). *)
Fixpoint find_col_data_stats (data_stats : list data_stat) (col : string)
  : dict diff_value :=
  match data_stats with
  | [] => []
  | data_stat :: rest =>
      if String.eqb (column_name data_stat) col
      then statistics data_stat
      else find_col_data_stats rest col
  end.

(** The body of the loop over [stats.items()]: the value stored at
    [requested_columns[col][stat]]. *)
Definition check_stat (col_data_stats : dict diff_value)
    (stat : string) (bounds : bounds) : result stat_report :=
  match get stat col_data_stats with
  | None => Ok (StatMsg "Statistic requested was not found.")
  | Some diff_val =>
      let diff_val := if is_unchanged diff_val then DNum 0 else diff_val in
      between_bounds <-
        is_value_between_bounds diff_val (lower bounds) (upper bounds) true ;;
      if negb between_bounds
      then Ok (StatOut (lower bounds) (upper bounds) diff_val)
      else Ok StatTrue
  end.

(** [for stat, bounds in stats.items(): requested_columns[col][stat] = ...] *)
Definition stats_loop (col_data_stats : dict diff_value)
    (stats : dict bounds) (requested : dict stat_report)
  : result (dict stat_report) :=
  for_items (check_stat col_data_stats) stats requested.

(** The body of the loop over [limit_check_report_keys_copy.items()]: the
    value stored at [requested_columns[col]]. The dictionaries are values
    here. In Python the entry stored under ["*"] is one object, shared by the
    columns it is applied to, so a later column may find its statistics
    already expanded; expanding them again gives the same dictionary
    ([check_column_expanded]). *)
Definition check_column (numeric_columns columns : list string)
    (data_stats : list data_stat) (numerical_diff_statistics : list string)
    (col : string) (stats : dict bounds) : result column_report :=
  if negb (inb col numeric_columns)
  then Ok (ColMsg "Column is Non-Numeric")
  else
    let stats :=
      replace_generic_operator_in_report_keys stats numerical_diff_statistics in
    if negb (inb col columns)
    then Ok (ColMsg "Column requested was not found.")
    else
      let col_data_stats := find_col_data_stats data_stats col in
      requested <- stats_loop col_data_stats stats [] ;;
      Ok (ColStats requested).

(** [for col, stats in limit_check_report_keys_copy.items():
      requested_columns[col] = ...] *)
Definition columns_loop (numeric_columns columns : list string)
    (data_stats : list data_stat) (numerical_diff_statistics : list string)
    (limit_check_report_keys_copy : dict (dict bounds))
    (requested_columns : dict column_report)
  : result (dict column_report) :=
  for_items
    (check_column numeric_columns columns data_stats numerical_diff_statistics)
    limit_check_report_keys_copy requested_columns.

(** [DataProfilerProfileNumericColumnsDiffBetweenInclusiveThresholdRange._pandas] *)
Definition _pandas (metric_value_kwargs : metric_value_kwargs_t)
    (metrics : metrics_t) : result (dict column_report) :=
  let profile_diff := profile_diff metrics in
  let numeric_columns := profile_numeric_columns metrics in
  let limit_check_report_keys := limit_check_report_keys metric_value_kwargs in
  let numerical_diff_statistics :=
    numerical_diff_statistics metric_value_kwargs in
  let columns := keys (profile_schema profile_diff) in
  let data_stats := data_stats profile_diff in
  let limit_check_report_keys_copy :=
    replace_generic_operator_in_report_keys
      limit_check_report_keys numeric_columns in
  columns_loop numeric_columns columns data_stats numerical_diff_statistics
    limit_check_report_keys_copy [].

(** ** Vocabulary of the statements *)

(** The dictionary the outer loop runs over: [limit_check_report_keys_copy]
    after the column wildcard is expanded. *)
Definition requested_columns_of (metric_value_kwargs : metric_value_kwargs_t)
    (metrics : metrics_t) : dict (dict bounds) :=
  replace_generic_operator_in_report_keys
    (limit_check_report_keys metric_value_kwargs)
    (profile_numeric_columns metrics).

(** The dictionary the inner loop runs over for a numeric column whose entry
    is [stats]. *)
Definition requested_stats_of (metric_value_kwargs : metric_value_kwargs_t)
    (stats : dict bounds) : dict bounds :=
  replace_generic_operator_in_report_keys stats
    (numerical_diff_statistics metric_value_kwargs).

(** The bounds under which the pair [(col, stat)] is requested, if it is. *)
Definition requested_bounds (metric_value_kwargs : metric_value_kwargs_t)
    (metrics : metrics_t) (col stat : string) : option bounds :=
  match get col (requested_columns_of metric_value_kwargs metrics) with
  | Some stats => get stat (requested_stats_of metric_value_kwargs stats)
  | None => None
  end.

(** The diff statistics of a column, as [_pandas] finds them. *)
Definition col_data_stats_of (metrics : metrics_t) (col : string)
  : dict diff_value :=
  find_col_data_stats (data_stats (profile_diff metrics)) col.

(** [requested_columns[col][stat]] of a returned report. *)
Definition reported (requested_columns : dict column_report)
    (col stat : string) : option stat_report :=
  match get col requested_columns with
  | Some (ColStats stats) => get stat stats
  | _ => None
  end.

(** [lower <= v <= upper] *)
Definition in_range (b : bounds) (v : Q) : Prop :=
  lower b <= v /\ v <= upper b.

(** No key occurs twice, in [limit_check_report_keys] and in each of its
    values: what holds of every Python dictionary. *)
Definition well_formed_keys (limit_check_report_keys : dict (dict bounds))
  : bool :=
  wfb limit_check_report_keys
  && forallb (fun kv => wfb (snd kv)) limit_check_report_keys.

(** Every statistic of the diff report is a number or ["unchanged"]. *)
Definition numeric_report (metrics : metrics_t) : bool :=
  forallb
    (fun data_stat =>
       forallb
         (fun kv => match snd kv with DNum _ => true | DStr _ => is_unchanged (snd kv) end)
         (statistics data_stat))
    (data_stats (profile_diff metrics)).

(** The bounds of a pair in the specification's words: an explicit column
    key is used when there is one, otherwise the ["*"] column entry for a
    numeric column; within the entry an explicit statistic key is used when
    there is one, otherwise the ["*"] bounds for a statistic of
    [numerical_diff_statistics]. *)
Definition spec_bounds (limit_check_report_keys : dict (dict bounds))
    (numeric_columns numerical_diff_statistics : list string)
    (col stat : string) : option bounds :=
  let entry :=
    match get col limit_check_report_keys with
    | Some explicit => Some explicit
    | None =>
        if inb col numeric_columns
        then get "*"%string limit_check_report_keys
        else None
    end in
  match entry with
  | None => None
  | Some stats =>
      match get stat stats with
      | Some explicit => Some explicit
      | None =>
          if inb stat numerical_diff_statistics
          then get "*"%string stats
          else None
      end
  end.

(** ** A worked report *)

Definition bnd (l u : Q) : bounds := {| lower := l; upper := u |}.

Definition example_metrics : metrics_t :=
  {| profile_diff :=
       {| profile_schema :=
            [("by_2", [0%Z]); ("by_5", [1%Z]); ("words_by_10", [3%Z])];
          data_stats :=
            [ {| column_name := "by_2";
                 statistics := [("min", DNum 2); ("max", DNum 2);
                                ("sum", DStr "unchanged")] |};
              {| column_name := "by_5";
                 statistics := [("min", DNum 5); ("max", DNum (-3))] |};
              {| column_name := "words_by_10";
                 statistics := [] |} ] |};
     profile_numeric_columns := ["by_2"; "by_5"; "by_25"] |}.

Definition example_kwargs : metric_value_kwargs_t :=
  {| limit_check_report_keys :=
       [ ("*", [("*", bnd 0 5)]);
         ("by_2", [("min", bnd 3 10); ("sum", bnd 1 2)]);
         ("words_by_10", [("min", bnd 0 0)]) ];
     numerical_diff_statistics := ["min"; "max"; "sum"] |}.

Definition example_report : dict column_report :=
  [ ("by_2", ColStats [("min", StatOut 3 10 (DNum 2));
                       ("sum", StatOut 1 2 (DNum 0))]);
    ("words_by_10", ColMsg "Column is Non-Numeric");
    ("by_5", ColStats [("min", StatTrue);
                       ("max", StatOut 0 5 (DNum (-3)));
                       ("sum", StatMsg "Statistic requested was not found.")]);
    ("by_25", ColMsg "Column requested was not found.") ].

End Profiler.

(* ================================================================== *)
(** * The datasource, data asset and batch object model *)

Module Interfaces.

(** The values of option and metadata dictionaries (typed [Any] in the
    source) that the development covers: [None], integers and strings. *)
Inductive pyval : Type :=
| VNone
| VInt (z : Z)
| VStr (s : string).

(** [str(v)], as the f-string [f"{k}_{v}"] formats a value. *)
Definition py_str (v : pyval) : string :=
  match v with
  | VNone => "None"
  | VInt z => NilZero.string_of_int (Z.to_int z)
  | VStr s => s
  end.

(** [a == b] *)
Definition py_eqb (a b : pyval) : bool :=
  match a, b with
  | VNone, VNone => true
  | VInt x, VInt y => Z.eqb x y
  | VStr s, VStr t => String.eqb s t
  | _, _ => false
  end.

(** [a < b]: integers by value, strings by code points; every other pair
    raises [TypeError]. *)
Definition py_lt (a b : pyval) : result bool :=
  match a, b with
  | VInt x, VInt y => Ok (Z.ltb x y)
  | VStr s, VStr t => Ok (String.ltb s t)
  | _, _ => Raise TypeError
  end.


Definition BatchRequestOptions : Type := dict pyval.

(** Objects that are shared and mutated are named by a reference into the
    [Store]; [is] compares references. *)
Definition ref : Type := nat.

Module BatchRequest.
Record t : Type :=
  { datasource_name : string;
    data_asset_name : string;
    options : BatchRequestOptions }.
End BatchRequest.

Module BatchSorter.
Record t : Type :=
  { key : string;
    reverse : bool }.
End BatchSorter.

Module Batch.
(** [datasource] and [data_asset] refer to the objects; [data] is the handle
    to the batch data of the execution engine. The legacy fields, which no
    method here reads, are left out. *)
Record t : Type :=
  { datasource : ref;
    data_asset : ref;
    batch_request : BatchRequest.t;
    data : nat;
    id : string;
    metadata : dict pyval }.
End Batch.

Module DataAsset.
(** The two abstract methods are fields: what the subclass of the asset
    defines ([Raise NotImplementedError] for the base class itself).
    [_datasource] is [None] until the private attribute is assigned. *)
Record t : Type :=
  { name : string;
    type : string;
    order_by : list BatchSorter.t;
    _datasource : option ref;
    batch_request_options_template : result BatchRequestOptions;
    get_batch_list_from_batch_request :
      BatchRequest.t -> result (list Batch.t) }.

(** [asset._datasource = ds] *)
Definition set__datasource (ds : ref) (asset : t) : t :=
  {| name := name asset;
     type := type asset;
     order_by := order_by asset;
     _datasource := Some ds;
     batch_request_options_template := batch_request_options_template asset;
     get_batch_list_from_batch_request :=
       get_batch_list_from_batch_request asset |}.
End DataAsset.

Module Datasource.
(** [assets] maps a name to the asset object registered under it. *)
Record t : Type :=
  { type : string;
    name : string;
    assets : dict ref }.

Definition set_assets (assets' : dict ref) (ds : t) : t :=
  {| type := type ds; name := name ds; assets := assets' |}.
End Datasource.

(** The objects: a reference is an index. *)
Record Store : Type :=
  { datasources : list Datasource.t;
    data_assets : list DataAsset.t }.

(** [l[i] = x] for an index of the list. *)
Fixpoint list_set {A : Type} (i : nat) (x : A) (l : list A) : list A :=
  match l, i with
  | [], _ => []
  | _ :: l', O => x :: l'
  | y :: l', S i' => y :: list_set i' x l'
  end.

(** ** Batch sorters *)

(** [_batch_sorter_from_str]; [sort_key[0]] of the empty string raises
    [IndexError]. *)
Definition _batch_sorter_from_str (sort_key : string)
  : result BatchSorter.t :=
  match sort_key with
  | EmptyString => Raise IndexError
  | String c rest =>
      if Ascii.eqb c "-"
      then Ok {| BatchSorter.key := rest; BatchSorter.reverse := true |}
      else if Ascii.eqb c "+"
      then Ok {| BatchSorter.key := rest; BatchSorter.reverse := false |}
      else Ok {| BatchSorter.key := sort_key; BatchSorter.reverse := false |}
  end.

(** ** [list.sort(key=..., reverse=...)] *)

(** The comparison [a < b] of the sort, reversed when [reverse] is set. *)
Definition sort_lt (reverse : bool) (a b : pyval) : result bool :=
  if reverse then py_lt b a else py_lt a b.

(** Inserting [x], which stood before every element of the sorted [l]: it
    goes before the first element that is not less than it, so elements with
    equal keys keep their order. *)
Fixpoint insert_keyed {A : Type} (reverse : bool) (x : pyval * A)
    (l : list (pyval * A)) : result (list (pyval * A)) :=
  match l with
  | [] => Ok [x]
  | y :: l' =>
      less <- sort_lt reverse (fst y) (fst x) ;;
      if less
      then (r <- insert_keyed reverse x l' ;; Ok (y :: r))
      else Ok (x :: y :: l')
  end.

Fixpoint sort_keyed {A : Type} (reverse : bool) (l : list (pyval * A))
  : result (list (pyval * A)) :=
  match l with
  | [] => Ok []
  | x :: l' =>
      sorted <- sort_keyed reverse l' ;;
      insert_keyed reverse x sorted
  end.

(** The keys of all the elements, computed before any comparison. *)
Fixpoint keyed {A : Type} (key : A -> result pyval) (l : list A)
  : result (list (pyval * A)) :=
  match l with
  | [] => Ok []
  | x :: l' =>
      k <- key x ;;
      rest <- keyed key l' ;;
      Ok ((k, x) :: rest)
  end.

(** The list left by [l.sort(key=key, reverse=reverse)]: a stable sort that
    compares keys with [<] only. *)
Definition list_sort {A : Type} (key : A -> result pyval) (reverse : bool)
    (l : list A) : result (list A) :=
  decorated <- keyed key l ;;
  sorted <- sort_keyed reverse decorated ;;
  Ok (map snd sorted).

(** ** [DataAsset] *)

(** [b.metadata[key]] *)
Definition metadata_item (key : string) (b : Batch.t) : result pyval :=
  match get key (Batch.metadata b) with
  | Some v => Ok v
  | None => Raise KeyError
  end.

(** [self._datasource], the object. *)
Definition DataAsset_datasource (st : Store) (self : DataAsset.t)
  : result Datasource.t :=
  match DataAsset._datasource self with
  | None => Raise AttributeError
  | Some ds =>
      match nth_error (datasources st) ds with
      | Some d => Ok d
      | None => Raise AttributeError
      end
  end.

(** [DataAsset._valid_batch_request_options] *)
Definition DataAsset__valid_batch_request_options (self : DataAsset.t)
    (options : BatchRequestOptions) : result bool :=
  template <- DataAsset.batch_request_options_template self ;;
  Ok (forallb (fun k => inb k (keys template)) (keys options)).

(** [options or {}] *)
Definition options_or_empty (options : option BatchRequestOptions)
  : BatchRequestOptions :=
  match options with
  | None => []
  | Some [] => []
  | Some o => o
  end.

(** [DataAsset.get_batch_request] *)
Definition DataAsset_get_batch_request (st : Store) (self : DataAsset.t)
    (options : option BatchRequestOptions) : result BatchRequest.t :=
  invalid <-
    match options with
    | None => Ok false
    | Some o =>
        valid <- DataAsset__valid_batch_request_options self o ;;
        Ok (negb valid)
    end ;;
  if invalid : bool
  then Raise BatchRequestError
  else
    datasource <- DataAsset_datasource st self ;;
    Ok {| BatchRequest.datasource_name := Datasource.name datasource;
          BatchRequest.data_asset_name := DataAsset.name self;
          BatchRequest.options := options_or_empty options |}.

(** The loop of [sort_batches] over the sorters, given in the order in which
    they are applied. A missing key is re-raised as [KeyError]; a
    [TypeError] of the comparison passes through. *)
Fixpoint sort_batches_loop (sorters : list BatchSorter.t)
    (batch_list : list Batch.t) : result (list Batch.t) :=
  match sorters with
  | [] => Ok batch_list
  | sorter :: rest =>
      batch_list <-
        list_sort (metadata_item (BatchSorter.key sorter))
          (BatchSorter.reverse sorter) batch_list ;;
      sort_batches_loop rest batch_list
  end.

(** [DataAsset.sort_batches]: the content of [batch_list] when the method
    returns. *)
Definition DataAsset_sort_batches (self : DataAsset.t)
    (batch_list : list Batch.t) : result (list Batch.t) :=
  sort_batches_loop (rev (DataAsset.order_by self)) batch_list.

(** ** The order that [sort_batches] is to establish *)

(** [a] comes strictly before [b] in the direction of a sorter. *)
Definition before (reverse : bool) (a b : pyval) : Prop :=
  sort_lt reverse a b = Ok true.

(** The lexicographic order of two batches by the metadata values at the
    keys of [sorters], the first sorter the most significant, each key
    ascending unless its [reverse] flag is set. *)
Fixpoint lex_le (sorters : list BatchSorter.t) (a b : Batch.t) : Prop :=
  match sorters with
  | [] => True
  | sorter :: rest =>
      exists ka kb,
        get (BatchSorter.key sorter) (Batch.metadata a) = Some ka /\
        get (BatchSorter.key sorter) (Batch.metadata b) = Some kb /\
        (before (BatchSorter.reverse sorter) ka kb \/
         (ka = kb /\ lex_le rest a b))
  end.

(** The order of keyed elements in one pass: by key in the direction of
    the pass, and by [R] for equal keys. *)
Definition keyed_le {A : Type} (reverse : bool) (R : A -> A -> Prop)
    (x y : pyval * A) : Prop :=
  before reverse (fst x) (fst y) \/ (fst x = fst y /\ R (snd x) (snd y)).

Definition is_int (v : pyval) : bool :=
  match v with VInt _ => true | _ => false end.

Definition is_str (v : pyval) : bool :=
  match v with VStr _ => true | _ => false end.

(** Every batch has a value of the kind [kind] under [key]. *)
Definition all_have (kind : pyval -> bool) (key : string)
    (batch_list : list Batch.t) : Prop :=
  Forall
    (fun b => exists v, get key (Batch.metadata b) = Some v /\ kind v = true)
    batch_list.

(** Under the key of every sorter the batches hold integers, or they hold
    strings. *)
Definition sortable (sorters : list BatchSorter.t)
    (batch_list : list Batch.t) : Prop :=
  Forall
    (fun sorter =>
       all_have is_int (BatchSorter.key sorter) batch_list \/
       all_have is_str (BatchSorter.key sorter) batch_list)
    sorters.

(** ** [Datasource] *)

(** [Datasource.get_asset] *)
Definition Datasource_get_asset (self : Datasource.t) (asset_name : string)
  : result ref :=
  match get asset_name (Datasource.assets self) with
  | Some asset => Ok asset
  | None => Raise LookupError
  end.

(** [Datasource.get_batch_list_from_batch_request] *)
Definition Datasource_get_batch_list_from_batch_request (st : Store)
    (self : Datasource.t) (batch_request : BatchRequest.t)
  : result (list Batch.t) :=
  data_asset <-
    Datasource_get_asset self (BatchRequest.data_asset_name batch_request) ;;
  match nth_error (data_assets st) data_asset with
  | Some asset =>
      DataAsset.get_batch_list_from_batch_request asset batch_request
  | None => Raise AttributeError
  end.

(** [Datasource.add_asset]: the returned asset and the store it leaves.
    [None] when a reference names no object, which no call can do. *)
Definition Datasource_add_asset (st : Store) (self : ref) (asset : ref)
  : option (ref * Store) :=
  match nth_error (datasources st) self, nth_error (data_assets st) asset with
  | Some ds, Some a =>
      let a' := DataAsset.set__datasource self a in
      let ds' :=
        Datasource.set_assets
          (set (DataAsset.name a') asset (Datasource.assets ds)) ds in
      Some (asset,
            {| datasources := list_set self ds' (datasources st);
               data_assets := list_set asset a' (data_assets st) |})
  | _, _ => None
  end.


(** Every asset of [ds] is registered under its own name: what [add_asset]
    establishes. *)
Definition registered_by_name (st : Store) (ds : Datasource.t) : Prop :=
  forall k r,
    get k (Datasource.assets ds) = Some r ->
    exists asset,
      nth_error (data_assets st) r = Some asset /\ DataAsset.name asset = k.

(** ** [Batch] *)

(** One segment of the id: [f"{k}_{v}"]. *)
Definition option_segment (kv : string * pyval) : string :=
  (fst kv ++ "_" ++ py_str (snd kv))%string.

(** [Batch._set_id]: the value stored under ["id"]. *)
Definition Batch__set_id (datasource : Datasource.t)
    (data_asset : DataAsset.t) (batch_request : BatchRequest.t) : string :=
  let options_list :=
    fold_left
      (fun options_list kv => options_list ++ [option_segment kv])
      (BatchRequest.options batch_request) [] in
  String.concat "-"
    (Datasource.name datasource :: DataAsset.name data_asset :: options_list).

(** The [MetricConfiguration] that [head] builds. *)
Record MetricConfiguration : Type :=
  { metric_name : string;
    metric_domain_kwargs : dict string;
    n_rows : Z;
    fetch_all : bool }.

Section Head.

(** The execution engine behind [self.data.execution_engine] and the [id]
    of a [MetricConfiguration] are not among the sources: they are
    parameters. An exception of the engine is an [EngineError]. *)
Context {EngineState MetricId MetricValue : Type}.
Variable load_batch_list : list Batch.t -> EngineState -> string + EngineState.
Variable resolve_metrics :
  list MetricConfiguration -> EngineState -> string + list (MetricId * MetricValue).
Variable metric_id : MetricConfiguration -> MetricId.
Variable MetricId_eqb : MetricId -> MetricId -> bool.

Definition engine_call {A : Type} (r : string + A) : result A :=
  match r with
  | inl msg => Raise (EngineError msg)
  | inr a => Ok a
  end.

(** [resolved_metrics[id]] *)
Fixpoint resolved_item (i : MetricId) (resolved : list (MetricId * MetricValue))
  : result MetricValue :=
  match resolved with
  | [] => Raise KeyError
  | (i', v) :: rest => if MetricId_eqb i i' then Ok v else resolved_item i rest
  end.

(** The metric requested by [head]. *)
Definition head_metric (self : Batch.t) (n_rows : Z) : MetricConfiguration :=
  {| metric_name := "table.head";
     metric_domain_kwargs := [("batch_id", Batch.id self)];
     n_rows := n_rows;
     fetch_all := false |}.

(** [Batch.head] *)
Definition Batch_head (self : Batch.t) (n_rows : Z) (engine : EngineState)
  : result MetricValue :=
  if negb (Z.eqb n_rows 0) && Z.ltb 0 n_rows
  then
    engine <- engine_call (load_batch_list [self] engine) ;;
    let metric := head_metric self n_rows in
    resolved_metrics <- engine_call (resolve_metrics [metric] engine) ;;
    resolved_item (metric_id metric) resolved_metrics
  else Raise BatchError.

End Head.

(** ** The rest of the sorter functions *)

(** [BatchSortersDefinition]: a list of sorters or a list of strings. *)
Inductive BatchSortersDefinition : Type :=
| SorterList (sorters : list BatchSorter.t)
| StrList (sorters : list string).

(** What the sorter functions raise: an exception of [exn], or
    [ValueError]. *)
Inductive raised : Type :=
| Raised (e : exn)
| ValueError.

Definition raising {A : Type} (r : result A) : raised + A :=
  match r with
  | Ok a => inr a
  | Raise e => inl (Raised e)
  end.

(** [_is_batch_sorter_list]: only the first element is looked at. *)
Definition _is_batch_sorter_list (sorters : BatchSortersDefinition) : bool :=
  match sorters with
  | SorterList _ => true
  | StrList [] => true
  | StrList (_ :: _) => false
  end.

(** [_is_str_sorter_list] *)
Definition _is_str_sorter_list (sorters : BatchSortersDefinition) : bool :=
  match sorters with
  | StrList (_ :: _) => true
  | _ => false
  end.

(** The list comprehension [[f(x) for x in l]] with a body that may raise. *)
Fixpoint comprehension {A B : Type} (f : A -> result B) (l : list A)
  : result (list B) :=
  match l with
  | [] => Ok []
  | x :: l' =>
      y <- f x ;;
      ys <- comprehension f l' ;;
      Ok (y :: ys)
  end.

(** [_batch_sorter_from_list] *)
Definition _batch_sorter_from_list (sorters : BatchSortersDefinition)
  : raised + list BatchSorter.t :=
  if _is_batch_sorter_list sorters
  then
    match sorters with
    | SorterList l => inr l
    | StrList _ => inr []
    end
  else if _is_str_sorter_list sorters
  then
    match sorters with
    | StrList l => raising (comprehension _batch_sorter_from_str l)
    | SorterList l => inr l
    end
  else inl ValueError.

(** [DataAsset._parse_order_by_sorter], the validator of each item of
    [order_by]: a string or a sorter. *)
Definition DataAsset__parse_order_by_sorter (v : string + BatchSorter.t)
  : raised + BatchSorter.t :=
  match v with
  | inl s =>
      match s with
      | EmptyString => inl ValueError
      | String _ _ => raising (_batch_sorter_from_str s)
      end
  | inr sorter => inr sorter
  end.

(** [self.order_by = sorters] *)
Definition set_order_by (sorters : list BatchSorter.t) (asset : DataAsset.t)
  : DataAsset.t :=
  {| DataAsset.name := DataAsset.name asset;
     DataAsset.type := DataAsset.type asset;
     DataAsset.order_by := sorters;
     DataAsset._datasource := DataAsset._datasource asset;
     DataAsset.batch_request_options_template :=
       DataAsset.batch_request_options_template asset;
     DataAsset.get_batch_list_from_batch_request :=
       DataAsset.get_batch_list_from_batch_request asset |}.

(** [DataAsset.add_sorters]: the asset it returns. *)
Definition DataAsset_add_sorters (self : DataAsset.t)
    (sorters : BatchSortersDefinition) : raised + DataAsset.t :=
  match _batch_sorter_from_list sorters with
  | inl e => inl e
  | inr order_by => inr (set_order_by order_by self)
  end.

(** ** Validation of a batch request *)

(** [DataAsset._validate_batch_request]. The datasource is read for the
    comparison; on the failing path the expected form is built first, which
    reads the datasource and the options template again. *)
Definition DataAsset__validate_batch_request (st : Store)
    (self : DataAsset.t) (batch_request : BatchRequest.t) : result unit :=
  datasource <- DataAsset_datasource st self ;;
  valid <-
    (if String.eqb (BatchRequest.datasource_name batch_request)
          (Datasource.name datasource)
     then
       if String.eqb (BatchRequest.data_asset_name batch_request)
            (DataAsset.name self)
       then
         DataAsset__valid_batch_request_options self
           (BatchRequest.options batch_request)
       else Ok false
     else Ok false) ;;
  if negb valid
  then
    datasource <- DataAsset_datasource st self ;;
    template <- DataAsset.batch_request_options_template self ;;
    Raise BatchRequestError
  else Ok tt.

(** ** Construction of a datasource *)

(** [Datasource._excluded_eng_args] *)
Definition _excluded_eng_args : list string :=
  ["name"; "type"; "execution_engine"; "assets"].

(** The [engine_kwargs] of [Datasource.__init__]: the keyword arguments
    handed to the constructor of the execution engine. *)
Definition engine_kwargs {V : Type} (kwargs : dict V) : dict V :=
  filter (fun kv => negb (inb (fst kv) _excluded_eng_args)) kwargs.

Section LoadAssets.

(** [_SourceFactories.type_lookup] and the constructors of the asset types
    are not among the sources: [type_lookup] gives the constructor registered
    for a type name, or raises. *)
Variable type_lookup : pyval -> result (dict pyval -> result DataAsset.t).

(** The body of the loop of [_load_asset_subtype]: the asset stored under
    [asset_name]. *)
Definition load_asset (asset_name : string) (config : dict pyval)
  : result DataAsset.t :=
  asset_type_name <-
    match get "type" config with
    | Some v => Ok v
    | None => Raise KeyError
    end ;;
  asset_type <- type_lookup asset_type_name ;;
  asset_type config.

(** [Datasource._load_asset_subtype] *)
Definition Datasource__load_asset_subtype (v : dict (dict pyval))
  : result (dict DataAsset.t) :=
  for_items load_asset v [].

End LoadAssets.

(** ** Worked objects *)

Definition year_month_template : BatchRequestOptions :=
  [("year", VNone); ("month", VNone)].

Definition example_request (options : BatchRequestOptions) : BatchRequest.t :=
  {| BatchRequest.datasource_name := "warehouse";
     BatchRequest.data_asset_name := "trips";
     BatchRequest.options := options |}.

Definition warehouse : Datasource.t :=
  {| Datasource.type := "sql";
     Datasource.name := "warehouse";
     Datasource.assets := [("trips", 0%nat)] |}.

(** The asset ["trips"], ordered by year descending and month ascending,
    with the batches it produces. *)
Definition trips_asset_with (batches : list Batch.t) : DataAsset.t :=
  {| DataAsset.name := "trips";
     DataAsset.type := "table";
     DataAsset.order_by :=
       [ {| BatchSorter.key := "year"; BatchSorter.reverse := true |};
         {| BatchSorter.key := "month"; BatchSorter.reverse := false |} ];
     DataAsset._datasource := Some 0%nat;
     DataAsset.batch_request_options_template := Ok year_month_template;
     DataAsset.get_batch_list_from_batch_request := fun _ => Ok batches |}.

Definition example_batch (year month : Z) : Batch.t :=
  let request := example_request [("year", VInt year); ("month", VInt month)] in
  {| Batch.datasource := 0%nat;
     Batch.data_asset := 0%nat;
     Batch.batch_request := request;
     Batch.data := 0%nat;
     Batch.id := Batch__set_id warehouse (trips_asset_with []) request;
     Batch.metadata := [("year", VInt year); ("month", VInt month)] |}.

Definition trips_asset : DataAsset.t :=
  trips_asset_with [example_batch 2020 1; example_batch 2021 3].

(** An asset that no datasource owns yet. *)
Definition zones_asset : DataAsset.t :=
  {| DataAsset.name := "zones";
     DataAsset.type := "table";
     DataAsset.order_by := [];
     DataAsset._datasource := None;
     DataAsset.batch_request_options_template := Ok [];
     DataAsset.get_batch_list_from_batch_request := fun _ => Ok [] |}.

Definition example_store : Store :=
  {| datasources := [warehouse];
     data_assets := [trips_asset; zones_asset] |}.

Definition unsorted_batches : list Batch.t :=
  [ example_batch 2020 7; example_batch 2021 3; example_batch 2020 1;
    example_batch 2021 12 ].

(** An engine that records the ids of the batches it loaded and resolves
    every metric to the number of rows asked for. *)
Definition example_load_batch_list (batch_list : list Batch.t)
    (engine : list string) : string + list string :=
  inr (engine ++ map Batch.id batch_list).

Definition example_metric_id (metric : MetricConfiguration)
  : string * string :=
  (metric_name metric,
   match get "batch_id" (metric_domain_kwargs metric) with
   | Some i => i
   | None => ""
   end).

Definition example_resolve_metrics (metrics : list MetricConfiguration)
    (engine : list string) : string + list (string * string * Z) :=
  inr (map (fun metric => (example_metric_id metric, n_rows metric)) metrics).

Definition example_MetricId_eqb (i j : string * string) : bool :=
  String.eqb (fst i) (fst j) && String.eqb (snd i) (snd j).

(** An asset of the abstract base class, attached to the warehouse. *)
Definition abstract_asset : DataAsset.t :=
  {| DataAsset.name := "raw";
     DataAsset.type := "abstract";
     DataAsset.order_by := [];
     DataAsset._datasource := Some 0%nat;
     DataAsset.batch_request_options_template := Raise NotImplementedError;
     DataAsset.get_batch_list_from_batch_request :=
       fun _ => Raise NotImplementedError |}.

(** Two datasources without assets, and one asset. *)
Definition lake : Datasource.t :=
  {| Datasource.type := "pandas";
     Datasource.name := "lake";
     Datasource.assets := [] |}.

Definition archive : Datasource.t :=
  {| Datasource.type := "sql";
     Datasource.name := "archive";
     Datasource.assets := [] |}.

Definition two_datasources : Store :=
  {| datasources := [lake; archive];
     data_assets := [zones_asset] |}.

(** The warehouse and the store after [warehouse.add_asset(zones)]. *)
Definition warehouse_with_zones : Datasource.t :=
  {| Datasource.type := "sql";
     Datasource.name := "warehouse";
     Datasource.assets := [("trips", 0%nat); ("zones", 1%nat)] |}.

Definition store_with_zones : Store :=
  {| datasources := [warehouse_with_zones];
     data_assets :=
       [trips_asset; DataAsset.set__datasource 0%nat zones_asset] |}.

(** [a == b] for two lookups that may find nothing. *)
Definition same_value (a b : option pyval) : bool :=
  match a, b with
  | Some x, Some y => py_eqb x y
  | None, None => true
  | _, _ => false
  end.

(** [b] holds, under the key of every sorter, what [b0] holds. *)
Definition same_keys (sorters : list BatchSorter.t) (b0 b : Batch.t) : bool :=
  forallb
    (fun sorter =>
       same_value (get (BatchSorter.key sorter) (Batch.metadata b))
         (get (BatchSorter.key sorter) (Batch.metadata b0)))
    sorters.

(** A batch of January 2020 of the asset ["trips"], with its own data. *)
Definition january_batch (data : nat) : Batch.t :=
  let request := example_request [("year", VInt 2020); ("month", VInt 1)] in
  {| Batch.datasource := 0%nat;
     Batch.data_asset := 0%nat;
     Batch.batch_request := request;
     Batch.data := data;
     Batch.id := Batch__set_id warehouse (trips_asset_with []) request;
     Batch.metadata := [("year", VInt 2020); ("month", VInt 1)] |}.

(** A batch without metadata values to compare. *)
Definition unlabelled_batch : Batch.t :=
  {| Batch.datasource := 0%nat;
     Batch.data_asset := 0%nat;
     Batch.batch_request := example_request [];
     Batch.data := 0%nat;
     Batch.id := Batch__set_id warehouse (trips_asset_with []) (example_request []);
     Batch.metadata := [("year", VNone); ("month", VNone)] |}.

(** The constructors of a registry with the one asset type ["table"]. *)
Definition example_type_lookup (asset_type_name : pyval)
  : result (dict pyval -> result DataAsset.t) :=
  match asset_type_name with
  | VStr "table" =>
      Ok (fun config =>
            match get "name" config with
            | Some (VStr name) =>
                Ok {| DataAsset.name := name;
                      DataAsset.type := "table";
                      DataAsset.order_by := [];
                      DataAsset._datasource := None;
                      DataAsset.batch_request_options_template := Ok [];
                      DataAsset.get_batch_list_from_batch_request :=
                        fun _ => Ok [] |}
            | _ => Raise TypeError
            end)
  | _ => Raise LookupError
  end.

Definition example_assets_config : dict (dict pyval) :=
  [ ("zones", [("name", VStr "zones"); ("type", VStr "table")]);
    ("trips", [("name", VStr "rides"); ("type", VStr "table")]) ].

(** The datasource ["warehouse-eu"] and the asset ["eu-trips"]. *)
Definition warehouse_eu : Datasource.t :=
  {| Datasource.type := "sql";
     Datasource.name := "warehouse-eu";
     Datasource.assets := [] |}.

Definition eu_trips_asset : DataAsset.t :=
  {| DataAsset.name := "eu-trips";
     DataAsset.type := "table";
     DataAsset.order_by := [];
     DataAsset._datasource := None;
     DataAsset.batch_request_options_template := Ok [];
     DataAsset.get_batch_list_from_batch_request := fun _ => Ok [] |}.

End Interfaces.

(* ================================================================== *)
(** * The dependencies of the threshold-range metric *)

Module Dependencies.

(** A [MetricConfiguration]: its name and its two dictionaries of keyword
    arguments, which are passed on as they are. *)
Record MetricConfiguration (DomainKwargs ValueKwargs : Type) : Type :=
  { metric_name : string;
    metric_domain_kwargs : DomainKwargs;
    metric_value_kwargs : ValueKwargs }.

Arguments metric_name {DomainKwargs ValueKwargs} _.
Arguments metric_domain_kwargs {DomainKwargs ValueKwargs} _.
Arguments metric_value_kwargs {DomainKwargs ValueKwargs} _.

(** The [metric_name] of the provider. *)
Definition provider_metric_name : string :=
  "data_profiler.profile_numeric_columns_diff_between_inclusive_threshold_range".

(** The dependency of [metric] on the metric called [name]. *)
Definition dependency {D V : Type} (name : string)
    (metric : MetricConfiguration D V) : MetricConfiguration D V :=
  {| metric_name := name;
     metric_domain_kwargs := metric_domain_kwargs metric;
     metric_value_kwargs := metric_value_kwargs metric |}.

(** [_get_evaluation_dependencies]; [super_dependencies] is what the method
    of the parent class, which is not among the sources, returns. *)
Definition _get_evaluation_dependencies {D V : Type}
    (super_dependencies : dict (MetricConfiguration D V))
    (metric : MetricConfiguration D V) : dict (MetricConfiguration D V) :=
  let dependencies := super_dependencies in
  if String.eqb (metric_name metric) provider_metric_name
  then
    let dependencies :=
      set "data_profiler.profile_diff"
        (dependency "data_profiler.profile_diff" metric) dependencies in
    set "data_profiler.profile_numeric_columns"
      (dependency "data_profiler.profile_numeric_columns" metric) dependencies
  else dependencies.

End Dependencies.

(* ================================================================== *)
(** * The test runner of the developer tasks *)

Module Tasks.

(** [" ".join(cmds)] *)
Definition join_cmds (cmds : list string) : string := String.concat " " cmds.

(** [package.replace('.', '/')] *)
Fixpoint replace_dots (s : string) : string :=
  match s with
  | EmptyString => EmptyString
  | String c rest =>
      String (if Ascii.eqb c "." then "/"%char else c) (replace_dots rest)
  end.

(** The truth value of an optional string: [None] and [""] are false. *)
Definition truthy (s : option string) : bool :=
  match s with
  | Some (String _ _) => true
  | _ => false
  end.

Definition text_of (s : option string) : string :=
  match s with Some t => t | None => EmptyString end.

(** The [markers] of [tests] and the value of [unit] after the first lines:
    asking for integration tests switches the unit tests off. *)
Definition tests_markers (unit integration : bool) : list string * bool :=
  let markers := [] in
  let '(markers, unit) :=
    if integration
    then (markers ++ ["integration"], false)
    else (markers, unit) in
  (markers ++ [if unit then "unit" else "not unit"], unit).

(** The list [cmds] that [tests] joins and runs. [timeout] is the text of
    the timeout as the f-string formats it; [pytest_timeout_installed] says
    whether [import pytest_timeout] succeeds. *)
Definition tests_cmds (unit integration ignore_markers ci html cloud : bool)
    (slowest : Z) (timeout : string) (package : option string)
    (full_cov pytest_timeout_installed : bool) : list string :=
  let '(markers, unit) := tests_markers unit integration in
  let marker_text := String.concat " and " markers in
  let cov_param := "--cov=great_expectations" in
  let cov_param :=
    if truthy package && negb full_cov
    then (cov_param ++ "/" ++ replace_dots (text_of package))%string
    else cov_param in
  let cmds :=
    [ "pytest";
      ("--durations=" ++ NilZero.string_of_int (Z.to_int slowest))%string;
      cov_param;
      "--cov-report term";
      "-vv" ] in
  let cmds :=
    if negb ignore_markers
    then cmds ++ ["-m"; ("'" ++ marker_text ++ "'")%string]
    else cmds in
  let cmds :=
    if unit && negb ignore_markers
    then
      if pytest_timeout_installed
      then cmds ++ [("--timeout=" ++ timeout)%string]
      else cmds
    else cmds in
  let cmds := if cloud then cmds ++ ["--cloud"] else cmds in
  let cmds := if ci then cmds ++ ["--cov-report"; "xml"] else cmds in
  let cmds := if html then cmds ++ ["--cov-report"; "html"] else cmds in
  if truthy package
  then cmds ++ [("tests/" ++ replace_dots (text_of package))%string]
  else cmds.

(** [tests]: the command line handed to [ctx.run]. *)
Definition tests (unit integration ignore_markers ci html cloud : bool)
    (slowest : Z) (timeout : string) (package : option string)
    (full_cov pytest_timeout_installed : bool) : string :=
  join_cmds
    (tests_cmds unit integration ignore_markers ci html cloud slowest timeout
       package full_cov pytest_timeout_installed).

(** What [tests] prints before it runs the command. *)
Definition tests_printed (unit integration ignore_markers : bool)
    (pytest_timeout_installed : bool) : list string :=
  let '(_, unit) := tests_markers unit integration in
  if unit && negb ignore_markers
  then
    if pytest_timeout_installed
    then []
    else ["`pytest-timeout` is not installed, cannot use --timeout"]
  else [].

(** The marker expression that the arguments select. *)
Definition marker_expression (unit integration : bool) : string :=
  if integration then "integration and not unit"
  else if unit then "unit"
  else "not unit".

End Tasks.

(* ================================================================== *)
(** * Facts about dictionaries *)

Section PyDictFacts.
Context {V : Type}.
Implicit Types (d : dict V) (k : string) (v : V).

Lemma inb_In (x : string) (l : list string) : inb x l = true <-> In x l.
Proof.
  unfold inb. rewrite existsb_exists. split.
  - intros [y [Hy He]]. apply String.eqb_eq in He. now subst.
  - intros H. exists x. split; [assumption | apply String.eqb_refl].
Qed.

Lemma inb_false (x : string) (l : list string) : inb x l = false <-> ~ In x l.
Proof.
  rewrite <- inb_In. destruct (inb x l); split; intros; congruence.
Qed.

Lemma nodupb_NoDup (l : list string) : nodupb l = true <-> NoDup l.
Proof.
  induction l as [|x l IH]; simpl.
  - split; [constructor | reflexivity].
  - rewrite andb_true_iff, negb_true_iff, inb_false, IH. split.
    + intros [H1 H2]. now constructor.
    + intros H. inversion H; subst. now split.
Qed.

Lemma wfb_wf d : wfb d = true <-> wf d.
Proof. apply nodupb_NoDup. Qed.

Lemma get_None_keys k d : get k d = None <-> ~ In k (keys d).
Proof.
  induction d as [|[k' v'] d IH]; simpl.
  - tauto.
  - destruct (String.eqb_spec k k') as [->|Hne].
    + split; [discriminate | intros H; exfalso; apply H; now left].
    + rewrite IH. split.
      * intros H [He|Hi]; [congruence | contradiction].
      * intros H Hi. apply H. now right.
Qed.

Lemma get_Some_keys k d v : get k d = Some v -> In k (keys d).
Proof.
  intros H. destruct (in_dec string_dec k (keys d)) as [Hi|Hn]; [assumption|].
  apply get_None_keys in Hn. congruence.
Qed.

Lemma get_Some_In k d v : get k d = Some v -> In (k, v) d.
Proof.
  induction d as [|[k' v'] d IH]; simpl; [discriminate|].
  destruct (String.eqb_spec k k') as [->|Hne].
  - intros [= ->]. now left.
  - intros H. right. now apply IH.
Qed.

Lemma In_get k d v : wf d -> In (k, v) d -> get k d = Some v.
Proof.
  unfold wf. induction d as [|[k' v'] d IH]; simpl; [tauto|].
  intros Hnd [He|Hi].
  - inversion He; subst. now rewrite String.eqb_refl.
  - inversion Hnd as [|? ? Hni Hnd']; subst.
    destruct (String.eqb_spec k k') as [->|Hne].
    + exfalso. apply Hni. change k' with (fst (k', v)). now apply in_map.
    + now apply IH.
Qed.

Lemma contains_true k d : contains k d = true <-> In k (keys d).
Proof.
  unfold contains. destruct (get k d) as [v|] eqn:E.
  - split; [intros _; eapply get_Some_keys; eassumption | reflexivity].
  - apply get_None_keys in E. split; [discriminate | contradiction].
Qed.

Lemma contains_false k d : contains k d = false <-> ~ In k (keys d).
Proof.
  rewrite <- contains_true. destruct (contains k d); split; congruence.
Qed.

Lemma get_app k d1 d2 :
  get k (d1 ++ d2) = match get k d1 with Some v => Some v | None => get k d2 end.
Proof.
  induction d1 as [|[k' v'] d1 IH]; simpl; [reflexivity|].
  now destruct (String.eqb k k').
Qed.

Lemma get_set_eq k v d : get k (set k v d) = Some v.
Proof.
  induction d as [|[k' v'] d IH]; simpl.
  - now rewrite String.eqb_refl.
  - destruct (String.eqb k k') eqn:E; simpl; rewrite E; [reflexivity | exact IH].
Qed.

Lemma get_set_neq k k' v d : k <> k' -> get k' (set k v d) = get k' d.
Proof.
  intros Hne. induction d as [|[k0 v0] d IH]; simpl.
  - destruct (String.eqb_spec k' k); [congruence | reflexivity].
  - destruct (String.eqb_spec k k0) as [->|Hk]; simpl.
    + destruct (String.eqb_spec k' k0); [congruence | reflexivity].
    + now rewrite IH.
Qed.

Lemma set_fresh k v d : ~ In k (keys d) -> set k v d = d ++ [(k, v)].
Proof.
  induction d as [|[k0 v0] d IH]; simpl; intros Hn; [reflexivity|].
  destruct (String.eqb_spec k k0) as [->|Hk].
  - exfalso. apply Hn. now left.
  - rewrite IH; [reflexivity | intros Hi; apply Hn; now right].
Qed.

Lemma keys_set_present k v d : In k (keys d) -> keys (set k v d) = keys d.
Proof.
  induction d as [|[k0 v0] d IH]; simpl; [tauto|].
  intros Hi. destruct (String.eqb_spec k k0) as [->|Hk]; simpl; [reflexivity|].
  f_equal. apply IH. destruct Hi; [congruence | assumption].
Qed.

Lemma wf_set k v d : wf d -> wf (set k v d).
Proof.
  unfold wf. intros Hd.
  destruct (in_dec string_dec k (keys d)) as [Hi|Hn].
  - now rewrite keys_set_present.
  - rewrite (set_fresh k v d Hn). unfold keys. rewrite map_app. simpl.
    apply NoDup_app; [assumption | repeat constructor; intros [] |].
    intros x Hx [<-|[]]. contradiction.
Qed.

Lemma get_remove_eq k d : get k (remove k d) = None.
Proof.
  induction d as [|[k0 v0] d IH]; simpl; [reflexivity|].
  destruct (String.eqb k k0) eqn:E; simpl; [exact IH | now rewrite E].
Qed.

Lemma get_remove_neq k k' d : k <> k' -> get k' (remove k d) = get k' d.
Proof.
  intros Hne. induction d as [|[k0 v0] d IH]; simpl; [reflexivity|].
  destruct (String.eqb_spec k k0) as [->|Hk]; simpl.
  - destruct (String.eqb_spec k' k0); [congruence | exact IH].
  - now rewrite IH.
Qed.

Lemma keys_remove_incl k d x : In x (keys (remove k d)) -> In x (keys d).
Proof.
  induction d as [|[k0 v0] d IH]; simpl; [tauto|].
  destruct (String.eqb k k0); simpl; intuition.
Qed.

Lemma wf_remove k d : wf d -> wf (remove k d).
Proof.
  unfold wf. induction d as [|[k0 v0] d IH]; simpl; intros Hd; [constructor|].
  inversion Hd as [|? ? Hni Hd']; subst.
  destruct (String.eqb k k0); simpl; [now apply IH|].
  constructor; [|now apply IH].
  intros Hi. apply Hni. eapply keys_remove_incl; eassumption.
Qed.

End PyDictFacts.

(** ** The loop over the items of a dictionary *)

Section ForItems.
Context {A B : Type} (f : string -> A -> result B).

Lemma results_of_keys items rs : results_of f items rs -> keys rs = keys items.
Proof.
  unfold results_of. induction 1 as [|[k x] [k' r] items rs [Hk _] _ IH]; simpl.
  - reflexivity.
  - simpl in Hk. now rewrite IH, Hk.
Qed.

Lemma results_of_get items rs k x :
  results_of f items rs -> get k items = Some x ->
  exists r, f k x = Ok r /\ get k rs = Some r.
Proof.
  unfold results_of. induction 1 as [|[k1 x1] [k2 r2] items rs [Hk Hf] _ IH]; simpl.
  - discriminate.
  - simpl in Hk, Hf. subst k2.
    destruct (String.eqb_spec k k1) as [->|Hne].
    + intros [= <-]. now exists r2.
    + exact IH.
Qed.

Lemma for_items_app items acc res :
  wf items ->
  (forall k, In k (keys items) -> ~ In k (keys acc)) ->
  for_items f items acc = Ok res ->
  exists rs, results_of f items rs /\ res = acc ++ rs.
Proof.
  unfold wf. revert acc.
  induction items as [|[k x] items IH]; simpl; intros acc Hnd Hfresh H.
  - injection H as <-. exists []. split; [constructor | now rewrite app_nil_r].
  - apply bind_Ok_inv in H. destruct H as [r [Hr H]].
    inversion Hnd as [|? ? Hni Hnd']; subst.
    rewrite (set_fresh k r acc) in H by (apply Hfresh; now left).
    apply IH in H; [|assumption|].
    + destruct H as [rs [Hrs ->]]. exists ((k, r) :: rs). split.
      * constructor; [now split | exact Hrs].
      * now rewrite <- app_assoc.
    + intros k' Hk' Hin. unfold keys in Hin. rewrite map_app, in_app_iff in Hin.
      destruct Hin as [Hin|[<-|[]]].
      * apply (Hfresh k'); [now right | exact Hin].
      * contradiction.
Qed.

(** From the empty dictionary the loop builds exactly the results of its
    body, one per entry. *)
Lemma for_items_results items res :
  wf items -> for_items f items [] = Ok res -> results_of f items res.
Proof.
  intros Hwf H. apply for_items_app in H; [|assumption|intros ? _ []].
  destruct H as [rs [Hrs ->]]. exact Hrs.
Qed.

(** The loop raises only what its body raises on one of the entries. *)
Lemma for_items_Raise items acc e :
  for_items f items acc = Raise e ->
  exists k x, In (k, x) items /\ f k x = Raise e.
Proof.
  revert acc. induction items as [|[k x] items IH]; simpl; intros acc H.
  - discriminate.
  - destruct (f k x) as [r|e'] eqn:Hf; simpl in H.
    + apply IH in H. destruct H as [k' [x' [Hin H]]].
      exists k', x'. split; [now right | exact H].
    + injection H as ->. exists k, x. split; [now left | exact Hf].
Qed.

Lemma for_items_returns items acc :
  (forall k x, In (k, x) items -> exists r, f k x = Ok r) ->
  exists res, for_items f items acc = Ok res.
Proof.
  intros Hall. destruct (for_items f items acc) as [res|e] eqn:H.
  - now exists res.
  - apply for_items_Raise in H. destruct H as [k [x [Hin Hf]]].
    destruct (Hall k x Hin) as [r Hr]. congruence.
Qed.

End ForItems.

(* ================================================================== *)
(** * Properties of the threshold-range metric *)

Section ProfilerFacts.
Import Profiler.
Local Open Scope Q_scope.

Example _pandas_example :
  _pandas example_kwargs example_metrics = Ok example_report.
Proof. reflexivity. Qed.

(** ** Wildcard expansion *)

Section Wildcard.
Context {V : Type}.
Implicit Types (d : dict V) (general : V) (all_keys : list string).

Lemma get_fill general d key k :
  get k (fill general d key) =
  match get k d with
  | Some v => Some v
  | None => if String.eqb k key then Some general else None
  end.
Proof.
  unfold fill, contains. destruct (get key d) as [w|] eqn:Hkey.
  - destruct (get k d) as [v|] eqn:Hk; [reflexivity|].
    destruct (String.eqb_spec k key) as [->|]; [congruence | reflexivity].
  - destruct (String.eqb_spec k key) as [->|Hne].
    + now rewrite get_set_eq, Hkey.
    + rewrite get_set_neq by congruence. now destruct (get k d).
Qed.

Lemma get_fold_fill general all_keys d k :
  get k (fold_left (fill general) all_keys d) =
  match get k d with
  | Some v => Some v
  | None => if inb k all_keys then Some general else None
  end.
Proof.
  revert d. induction all_keys as [|key all_keys IH]; intros d; simpl.
  - now destruct (get k d).
  - rewrite IH, get_fill. destruct (get k d) as [v|]; [reflexivity|].
    destruct (String.eqb k key); simpl; [reflexivity|].
    reflexivity.
Qed.

Lemma wf_fold_fill general all_keys d :
  wf d -> wf (fold_left (fill general) all_keys d).
Proof.
  revert d. induction all_keys as [|key all_keys IH]; intros d Hd; simpl.
  - exact Hd.
  - apply IH. unfold fill. destruct (contains key d); [exact Hd|].
    now apply wf_set.
Qed.

(** An explicit key keeps its value; a key without an entry gets the value
    stored under ["*"] when it is one of [all_keys]; the ["*"] entry itself
    is taken out. *)
Lemma get_replace_generic d all_keys k :
  get k (replace_generic_operator_in_report_keys d all_keys) =
  match get "*"%string d with
  | None => get k d
  | Some general =>
      match get k (remove "*"%string d) with
      | Some v => Some v
      | None => if inb k all_keys then Some general else None
      end
  end.
Proof.
  unfold replace_generic_operator_in_report_keys.
  destruct (get "*"%string d) as [general|]; [|reflexivity].
  apply (get_fold_fill general).
Qed.

Lemma wf_replace_generic d all_keys :
  wf d -> wf (replace_generic_operator_in_report_keys d all_keys).
Proof.
  intros Hd. unfold replace_generic_operator_in_report_keys.
  destruct (get "*"%string d) as [general|]; [|exact Hd].
  apply (wf_fold_fill general). now apply wf_remove.
Qed.

(** Expanding an expanded dictionary changes nothing that a lookup can
    see: the dictionaries of statistics can be treated as values although
    one ["*"] column entry is shared by all the columns it is applied to. *)
Lemma get_replace_generic_idem d all_keys k :
  get k (replace_generic_operator_in_report_keys
           (replace_generic_operator_in_report_keys d all_keys) all_keys) =
  get k (replace_generic_operator_in_report_keys d all_keys).
Proof.
  rewrite (get_replace_generic
             (replace_generic_operator_in_report_keys d all_keys)).
  rewrite !get_replace_generic.
  destruct (get "*"%string d) as [general|] eqn:Hstar.
  - rewrite get_remove_eq.
    destruct (inb "*" all_keys) eqn:Hin; [|reflexivity].
    destruct (String.eqb_spec "*" k) as [<-|Hne].
    + now rewrite !get_remove_eq, Hin.
    + rewrite (get_remove_neq "*" k) by assumption.
      rewrite get_replace_generic, Hstar.
      now destruct (get k (remove "*" d)); [|destruct (inb k all_keys)].
  - reflexivity.
Qed.

(** Without ["*"] among [all_keys], an expanded dictionary is left as it
    is. *)
Lemma replace_generic_expanded d all_keys :
  inb "*" all_keys = false ->
  replace_generic_operator_in_report_keys
    (replace_generic_operator_in_report_keys d all_keys) all_keys =
  replace_generic_operator_in_report_keys d all_keys.
Proof.
  intros Hstar.
  assert (Hnone : get "*"%string
                    (replace_generic_operator_in_report_keys d all_keys) = None).
  { rewrite get_replace_generic.
    destruct (get "*"%string d) as [general|] eqn:Hd; [|reflexivity].
    now rewrite get_remove_eq, Hstar. }
  unfold replace_generic_operator_in_report_keys at 1. now rewrite Hnone.
Qed.

End Wildcard.

(** ** The body of the inner loop *)

Lemma in_range_bool (b : bounds) (v : Q) :
  Qle_bool (lower b) v && Qle_bool v (upper b) = true <-> in_range b v.
Proof.
  unfold in_range. now rewrite andb_true_iff, !Qle_bool_iff.
Qed.

Lemma in_range_bool_false (b : bounds) (v : Q) :
  Qle_bool (lower b) v && Qle_bool v (upper b) = false <-> ~ in_range b v.
Proof.
  rewrite <- in_range_bool.
  destruct (Qle_bool (lower b) v && Qle_bool v (upper b)); split; congruence.
Qed.

Lemma check_stat_missing cds stat b :
  get stat cds = None ->
  check_stat cds stat b = Ok (StatMsg "Statistic requested was not found.").
Proof. unfold check_stat. now intros ->. Qed.

Lemma check_stat_number cds stat b v :
  get stat cds = Some (DNum v) ->
  check_stat cds stat b =
  Ok (if Qle_bool (lower b) v && Qle_bool v (upper b)
      then StatTrue
      else StatOut (lower b) (upper b) (DNum v)).
Proof.
  unfold check_stat. intros ->. simpl.
  now destruct (Qle_bool (lower b) v && Qle_bool v (upper b)).
Qed.


(** The body raises exactly on a string other than ["unchanged"]. *)
Lemma check_stat_Raise cds stat b e :
  check_stat cds stat b = Raise e ->
  e = TypeError /\
  exists s, get stat cds = Some (DStr s) /\ s <> "unchanged"%string.
Proof.
  unfold check_stat. destruct (get stat cds) as [[v|s]|]; simpl.
  - destruct (Qle_bool (lower b) v && Qle_bool v (upper b)); discriminate.
  - destruct (String.eqb_spec s "unchanged") as [->|Hne]; simpl.
    + destruct (Qle_bool (lower b) 0 && Qle_bool 0 (upper b)); discriminate.
    + intros [= <-]. split; [reflexivity|]. now exists s.
  - discriminate.
Qed.

(** ** The two loops *)

Section Metric.
Variables (kwargs : metric_value_kwargs_t) (metrics : metrics_t).

Local Abbreviation numeric_columns := (profile_numeric_columns metrics).
Local Abbreviation columns := (keys (profile_schema (profile_diff metrics))).
Local Abbreviation body :=
  (check_column numeric_columns columns (data_stats (profile_diff metrics))
     (numerical_diff_statistics kwargs)).

Lemma _pandas_unfold :
  _pandas kwargs metrics =
  for_items body (requested_columns_of kwargs metrics) [].
Proof. reflexivity. Qed.

Lemma check_column_non_numeric col stats :
  inb col numeric_columns = false ->
  body col stats = Ok (ColMsg "Column is Non-Numeric").
Proof. unfold body, check_column. now intros ->. Qed.

Lemma check_column_not_found col stats :
  inb col numeric_columns = true -> inb col columns = false ->
  body col stats = Ok (ColMsg "Column requested was not found.").
Proof. unfold body, check_column. now intros -> ->. Qed.

Lemma check_column_stats col stats :
  inb col numeric_columns = true -> inb col columns = true ->
  body col stats =
  (requested <-
     for_items (check_stat (col_data_stats_of metrics col))
       (requested_stats_of kwargs stats) [] ;;
   Ok (ColStats requested)).
Proof. unfold body, check_column. now intros -> ->. Qed.

(** A column whose entry was expanded before is checked as if it had not
    been. *)
Lemma check_column_expanded col stats :
  inb "*" (numerical_diff_statistics kwargs) = false ->
  body col
    (replace_generic_operator_in_report_keys stats
       (numerical_diff_statistics kwargs)) =
  body col stats.
Proof.
  intros Hstar. unfold check_column.
  now rewrite (replace_generic_expanded stats _ Hstar).
Qed.

(** [_pandas] raises only when a requested statistic of a numeric column of
    the schema is a string other than ["unchanged"]; the exception is the
    [TypeError] of the comparison. *)
Lemma _pandas_Raise e :
  _pandas kwargs metrics = Raise e ->
  e = TypeError /\
  exists col stats stat b s,
    In (col, stats) (requested_columns_of kwargs metrics) /\
    inb col numeric_columns = true /\ inb col columns = true /\
    In (stat, b) (requested_stats_of kwargs stats) /\
    get stat (col_data_stats_of metrics col) = Some (DStr s) /\
    s <> "unchanged"%string.
Proof.
  rewrite _pandas_unfold. intros H.
  apply for_items_Raise in H. destruct H as [col [stats [Hin H]]].
  destruct (inb col numeric_columns) eqn:Hnum;
    [|now rewrite check_column_non_numeric in H].
  destruct (inb col columns) eqn:Hcol;
    [|now rewrite check_column_not_found in H].
  rewrite check_column_stats in H by assumption.
  destruct (for_items _ _ _) as [r|e'] eqn:Hloop in H; [discriminate|].
  simpl in H. injection H as ->.
  apply for_items_Raise in Hloop. destruct Hloop as [stat [b [Hinb Hb]]].
  apply check_stat_Raise in Hb. destruct Hb as [-> [s [Hs Hne]]].
  split; [reflexivity|]. now exists col, stats, stat, b, s.
Qed.

Lemma find_col_data_stats_In ds col k v :
  In (k, v) (find_col_data_stats ds col) ->
  exists data_stat, In data_stat ds /\ In (k, v) (statistics data_stat).
Proof.
  induction ds as [|d ds IH]; simpl; [tauto|].
  destruct (String.eqb (column_name d) col).
  - intros H. exists d. split; [now left | exact H].
  - intros H. destruct (IH H) as [d' [Hd' Hin]]. exists d'. split; [now right | exact Hin].
Qed.

(** On a report whose statistics are numbers or ["unchanged"], [_pandas]
    returns, whatever is requested. *)
Lemma _pandas_returns :
  numeric_report metrics = true ->
  exists res, _pandas kwargs metrics = Ok res.
Proof.
  intros Hnum. destruct (_pandas kwargs metrics) as [res|e] eqn:H.
  - now exists res.
  - exfalso. apply _pandas_Raise in H.
    destruct H as [_ [col [stats [stat [b [s [_ [_ [_ [_ [Hs Hne]]]]]]]]]]].
    apply get_Some_In, find_col_data_stats_In in Hs.
    destruct Hs as [d [Hd Hin]].
    unfold numeric_report in Hnum. rewrite forallb_forall in Hnum.
    specialize (Hnum d Hd). rewrite forallb_forall in Hnum.
    specialize (Hnum _ Hin). simpl in Hnum.
    apply String.eqb_eq in Hnum. contradiction.
Qed.

Hypothesis Hwf : well_formed_keys (limit_check_report_keys kwargs) = true.

Lemma wf_limit_check_report_keys : wf (limit_check_report_keys kwargs).
Proof.
  unfold well_formed_keys in Hwf. apply andb_true_iff in Hwf.
  now apply wfb_wf.
Qed.

Lemma wf_limit_check_report_entry k stats :
  get k (limit_check_report_keys kwargs) = Some stats -> wf stats.
Proof.
  intros H. apply get_Some_In in H.
  unfold well_formed_keys in Hwf. apply andb_true_iff in Hwf.
  destruct Hwf as [_ Hall]. rewrite forallb_forall in Hall.
  apply wfb_wf. exact (Hall _ H).
Qed.

Lemma wf_requested_columns : wf (requested_columns_of kwargs metrics).
Proof. apply wf_replace_generic, wf_limit_check_report_keys. Qed.

Lemma wf_requested_entry col stats :
  get col (requested_columns_of kwargs metrics) = Some stats -> wf stats.
Proof.
  unfold requested_columns_of. rewrite get_replace_generic.
  destruct (get "*"%string (limit_check_report_keys kwargs)) as [g|] eqn:Hg.
  - destruct (get col (remove "*"%string (limit_check_report_keys kwargs)))
      as [v|] eqn:Hv.
    + intros [= <-]. destruct (String.eqb_spec "*" col) as [<-|Hne].
      * now rewrite get_remove_eq in Hv.
      * rewrite get_remove_neq in Hv by assumption.
        eapply wf_limit_check_report_entry; eassumption.
    + destruct (inb col (profile_numeric_columns metrics)); [|discriminate].
      intros [= <-]. eapply wf_limit_check_report_entry; eassumption.
  - apply wf_limit_check_report_entry.
Qed.

Lemma wf_requested_stats col stats :
  get col (requested_columns_of kwargs metrics) = Some stats ->
  wf (requested_stats_of kwargs stats).
Proof.
  intros H. apply wf_replace_generic. eapply wf_requested_entry; eassumption.
Qed.

(** The returned report holds, column by column, what the body of the outer
    loop computed. *)
Lemma _pandas_results res :
  _pandas kwargs metrics = Ok res ->
  results_of body (requested_columns_of kwargs metrics) res.
Proof.
  rewrite _pandas_unfold. apply for_items_results, wf_requested_columns.
Qed.

Lemma _pandas_column res col stats :
  _pandas kwargs metrics = Ok res ->
  get col (requested_columns_of kwargs metrics) = Some stats ->
  exists r, body col stats = Ok r /\ get col res = Some r.
Proof.
  intros H. apply results_of_get. now apply _pandas_results.
Qed.

(** For a numeric column of the schema the report holds a dictionary with
    one entry per requested statistic: what the body of the inner loop
    computed. *)
Lemma _pandas_stats res col stats :
  _pandas kwargs metrics = Ok res ->
  get col (requested_columns_of kwargs metrics) = Some stats ->
  inb col numeric_columns = true -> inb col columns = true ->
  exists inner,
    get col res = Some (ColStats inner) /\
    results_of (check_stat (col_data_stats_of metrics col))
      (requested_stats_of kwargs stats) inner.
Proof.
  intros H Hcol Hnum Hsch.
  destruct (_pandas_column res col stats H Hcol) as [r [Hr Hget]].
  rewrite check_column_stats in Hr by assumption.
  apply bind_Ok_inv in Hr. destruct Hr as [inner [Hloop [= <-]]].
  exists inner. split; [exact Hget|].
  apply for_items_results; [|exact Hloop].
  eapply wf_requested_stats; eassumption.
Qed.

Lemma _pandas_pair res col stat b :
  _pandas kwargs metrics = Ok res ->
  requested_bounds kwargs metrics col stat = Some b ->
  inb col numeric_columns = true -> inb col columns = true ->
  exists r,
    check_stat (col_data_stats_of metrics col) stat b = Ok r /\
    reported res col stat = Some r.
Proof.
  intros H Hb Hnum Hsch. unfold requested_bounds in Hb.
  destruct (get col (requested_columns_of kwargs metrics)) as [stats|] eqn:Hcol;
    [|discriminate].
  destruct (_pandas_stats res col stats H Hcol Hnum Hsch) as [inner [Hget Hres]].
  destruct (results_of_get _ _ _ _ _ Hres Hb) as [r [Hr Hg]].
  exists r. split; [exact Hr|]. unfold reported. now rewrite Hget.
Qed.

End Metric.

Lemma results_of_get_None {A B : Type} (f : string -> A -> result B)
    (items : dict A) (rs : dict B) (k : string) :
  results_of f items rs -> get k items = None -> get k rs = None.
Proof.
  intros H Hk. apply get_None_keys. rewrite (results_of_keys f items rs H).
  now apply get_None_keys.
Qed.

(** Away from the key ["*"] itself, the bounds [_pandas] uses for a pair are
    the ones the specification describes. *)
Lemma requested_bounds_spec kwargs metrics col stat :
  col <> "*"%string -> stat <> "*"%string ->
  requested_bounds kwargs metrics col stat =
  spec_bounds (limit_check_report_keys kwargs) (profile_numeric_columns metrics)
    (numerical_diff_statistics kwargs) col stat.
Proof.
  intros Hcol Hstat.
  assert (Hexp : forall (d : dict bounds) all_keys,
    get stat (replace_generic_operator_in_report_keys d all_keys) =
    match get stat d with
    | Some explicit => Some explicit
    | None => if inb stat all_keys then get "*"%string d else None
    end).
  { intros d all_keys. rewrite get_replace_generic.
    rewrite (get_remove_neq "*" stat) by congruence.
    destruct (get "*"%string d), (get stat d), (inb stat all_keys); reflexivity. }
  unfold requested_bounds, spec_bounds, requested_columns_of, requested_stats_of.
  rewrite get_replace_generic.
  rewrite (get_remove_neq "*" col) by congruence.
  destruct (get "*"%string (limit_check_report_keys kwargs)) as [g|];
    destruct (get col (limit_check_report_keys kwargs)) as [e|];
    try destruct (inb col (profile_numeric_columns metrics));
    try apply Hexp; reflexivity.
Qed.

(** ** What the metric reports *)

(** C1. For a requested pair (column, statistic) whose column is numeric and
    in the profile schema and whose statistic has the numeric delta [v] in
    the column's diff statistics, the returned report holds [True] for the
    pair if and only if [lower <= v <= upper], both bounds inclusive; when
    [v] is outside the range it holds the record of the lower bound, the
    upper bound and the value found. On a report of numbers and
    ["unchanged"] the metric returns. *)
Theorem C1_pair_passes_iff_delta_in_range
    (kwargs : metric_value_kwargs_t) (metrics : metrics_t)
    (col stat : string) (b : bounds) (v : Q) :
  well_formed_keys (limit_check_report_keys kwargs) = true ->
  requested_bounds kwargs metrics col stat = Some b ->
  inb col (profile_numeric_columns metrics) = true ->
  inb col (keys (profile_schema (profile_diff metrics))) = true ->
  get stat (col_data_stats_of metrics col) = Some (DNum v) ->
  (numeric_report metrics = true ->
   exists res, _pandas kwargs metrics = Ok res) /\
  (forall res, _pandas kwargs metrics = Ok res ->
     (reported res col stat = Some StatTrue <-> in_range b v) /\
     (~ in_range b v ->
      reported res col stat = Some (StatOut (lower b) (upper b) (DNum v)))).
Proof.
  intros Hwf Hb Hnum Hsch Hv. split; [apply (_pandas_returns kwargs metrics)|].
  intros res Hres.
  destruct (_pandas_pair kwargs metrics Hwf res col stat b Hres Hb Hnum Hsch)
    as [r [Hr Hrep]].
  rewrite (check_stat_number _ _ b v Hv) in Hr. injection Hr as <-.
  rewrite Hrep.
  destruct (Qle_bool (lower b) v && Qle_bool v (upper b)) eqn:E.
  - apply in_range_bool in E. split; [tauto | contradiction].
  - apply in_range_bool_false in E. split; [|reflexivity].
    split; [discriminate | contradiction].
Qed.


(** C2. For a numeric column of the schema and a statistic, neither of them
    the key ["*"] itself, the bounds checked are those of the explicit
    column key and explicit statistic key when there are such keys; the
    ["*"] column entry stands in for a numeric column without an explicit
    key, and the ["*"] bounds of an entry stand in for a statistic of
    [numerical_diff_statistics] without an explicit key in that entry. A
    pair without bounds is not reported. *)
Theorem C2_wildcards_and_explicit_precedence
    (kwargs : metric_value_kwargs_t) (metrics : metrics_t)
    (col stat : string) (res : dict column_report) :
  well_formed_keys (limit_check_report_keys kwargs) = true ->
  col <> "*"%string -> stat <> "*"%string ->
  inb col (profile_numeric_columns metrics) = true ->
  inb col (keys (profile_schema (profile_diff metrics))) = true ->
  _pandas kwargs metrics = Ok res ->
  match
    spec_bounds (limit_check_report_keys kwargs)
      (profile_numeric_columns metrics) (numerical_diff_statistics kwargs)
      col stat
  with
  | Some b =>
      exists r,
        check_stat (col_data_stats_of metrics col) stat b = Ok r /\
        reported res col stat = Some r
  | None => reported res col stat = None
  end.
Proof.
  intros Hwf Hcol Hstat Hnum Hsch Hres.
  rewrite <- requested_bounds_spec by assumption.
  destruct (requested_bounds kwargs metrics col stat) as [b|] eqn:Hb.
  - exact (_pandas_pair kwargs metrics Hwf res col stat b Hres Hb Hnum Hsch).
  - unfold requested_bounds in Hb. unfold reported.
    destruct (get col (requested_columns_of kwargs metrics)) as [stats|] eqn:Hc.
    + destruct (_pandas_stats kwargs metrics Hwf res col stats Hres Hc Hnum Hsch)
        as [inner [-> Hinner]].
      eapply results_of_get_None; eassumption.
    + rewrite (results_of_get_None _ _ _ _ (_pandas_results kwargs metrics Hwf res Hres) Hc).
      reflexivity.
Qed.

(** C9. What cannot be checked against bounds yields a marker string and
    the evaluation goes on: the report has one entry per requested column,
    in the order of the request; a column that is not numeric has
    ["Column is Non-Numeric"], in the schema or not; a numeric column that is
    not in the schema has ["Column requested was not found."]; a numeric
    column of the schema has one entry per requested statistic, which is
    ["Statistic requested was not found."] for a statistic that the column's
    diff statistics do not hold. The metric raises only the [TypeError] of a
    comparison with a string other than ["unchanged"]. *)
Theorem C9_markers_and_evaluation_continues
    (kwargs : metric_value_kwargs_t) (metrics : metrics_t) :
  well_formed_keys (limit_check_report_keys kwargs) = true ->
  (numeric_report metrics = true ->
   exists res, _pandas kwargs metrics = Ok res) /\
  (forall e, _pandas kwargs metrics = Raise e -> e = TypeError) /\
  (forall res, _pandas kwargs metrics = Ok res ->
     keys res = keys (requested_columns_of kwargs metrics) /\
     forall col stats,
       get col (requested_columns_of kwargs metrics) = Some stats ->
       (inb col (profile_numeric_columns metrics) = false ->
        get col res = Some (ColMsg "Column is Non-Numeric")) /\
       (inb col (profile_numeric_columns metrics) = true ->
        inb col (keys (profile_schema (profile_diff metrics))) = false ->
        get col res = Some (ColMsg "Column requested was not found.")) /\
       (inb col (profile_numeric_columns metrics) = true ->
        inb col (keys (profile_schema (profile_diff metrics))) = true ->
        exists inner,
          get col res = Some (ColStats inner) /\
          keys inner = keys (requested_stats_of kwargs stats) /\
          forall stat,
            In stat (keys (requested_stats_of kwargs stats)) ->
            get stat (col_data_stats_of metrics col) = None ->
            get stat inner =
            Some (StatMsg "Statistic requested was not found."))).
Proof.
  intros Hwf. split; [apply (_pandas_returns kwargs metrics)|]. split.
  { intros e He. now apply (_pandas_Raise kwargs metrics) in He. }
  intros res Hres. split.
  { apply (results_of_keys _ _ _ (_pandas_results kwargs metrics Hwf res Hres)). }
  intros col stats Hcol.
  destruct (_pandas_column kwargs metrics Hwf res col stats Hres Hcol)
    as [r [Hr Hget]].
  split; [|split].
  - intros Hnum. rewrite check_column_non_numeric in Hr by assumption.
    now injection Hr as <-.
  - intros Hnum Hsch. rewrite check_column_not_found in Hr by assumption.
    now injection Hr as <-.
  - intros Hnum Hsch.
    destruct (_pandas_stats kwargs metrics Hwf res col stats Hres Hcol Hnum Hsch)
      as [inner [Hinner Hresults]].
    exists inner. split; [exact Hinner|]. split.
    + eapply results_of_keys; eassumption.
    + intros stat Hin Hnone.
      destruct (get stat (requested_stats_of kwargs stats)) as [b|] eqn:Hb;
        [|apply get_None_keys in Hb; contradiction].
      destruct (results_of_get _ _ _ _ _ Hresults Hb) as [r' [Hr' Hg]].
      rewrite check_stat_missing in Hr' by assumption.
      now injection Hr' as <-.
Qed.

(** The statements above at the worked report. *)

Lemma C1_witness :
  (numeric_report example_metrics = true ->
   exists res, _pandas example_kwargs example_metrics = Ok res) /\
  (forall res, _pandas example_kwargs example_metrics = Ok res ->
     (reported res "by_5" "min" = Some StatTrue <-> in_range (bnd 0 5) 5) /\
     (~ in_range (bnd 0 5) 5 ->
      reported res "by_5" "min" =
      Some (StatOut (lower (bnd 0 5)) (upper (bnd 0 5)) (DNum 5)))).
Proof.
  apply (C1_pair_passes_iff_delta_in_range
           example_kwargs example_metrics "by_5" "min" (bnd 0 5) 5);
    reflexivity.
Defined.


Lemma C2_witness :
  exists r,
    check_stat (col_data_stats_of example_metrics "by_5") "max" (bnd 0 5) = Ok r /\
    reported example_report "by_5" "max" = Some r.
Proof.
  apply (C2_wildcards_and_explicit_precedence
           example_kwargs example_metrics "by_5" "max" example_report);
    try reflexivity; discriminate.
Defined.

Lemma C9_witness :
  (numeric_report example_metrics = true ->
   exists res, _pandas example_kwargs example_metrics = Ok res) /\
  (forall e, _pandas example_kwargs example_metrics = Raise e -> e = TypeError) /\
  (forall res, _pandas example_kwargs example_metrics = Ok res ->
     keys res = keys (requested_columns_of example_kwargs example_metrics) /\
     forall col stats,
       get col (requested_columns_of example_kwargs example_metrics) = Some stats ->
       (inb col (profile_numeric_columns example_metrics) = false ->
        get col res = Some (ColMsg "Column is Non-Numeric")) /\
       (inb col (profile_numeric_columns example_metrics) = true ->
        inb col (keys (profile_schema (profile_diff example_metrics))) = false ->
        get col res = Some (ColMsg "Column requested was not found.")) /\
       (inb col (profile_numeric_columns example_metrics) = true ->
        inb col (keys (profile_schema (profile_diff example_metrics))) = true ->
        exists inner,
          get col res = Some (ColStats inner) /\
          keys inner = keys (requested_stats_of example_kwargs stats) /\
          forall stat,
            In stat (keys (requested_stats_of example_kwargs stats)) ->
            get stat (col_data_stats_of example_metrics col) = None ->
            get stat inner =
            Some (StatMsg "Statistic requested was not found."))).
Proof.
  apply (C9_markers_and_evaluation_continues example_kwargs example_metrics).
  reflexivity.
Defined.

End ProfilerFacts.

(* ================================================================== *)
(** * Properties of the datasource, data asset and batch object model *)

Section InterfacesFacts.
Import Interfaces.

(** ** Lists as heaps *)

Lemma nth_error_list_set_eq {A : Type} (l : list A) (i : nat) (x y : A) :
  nth_error l i = Some y -> nth_error (list_set i x l) i = Some x.
Proof.
  revert i. induction l as [|z l IH]; intros [|i]; simpl; try discriminate.
  - reflexivity.
  - apply IH.
Qed.

Lemma nth_error_list_set_neq {A : Type} (l : list A) (i j : nat) (x : A) :
  i <> j -> nth_error (list_set i x l) j = nth_error l j.
Proof.
  revert i j. induction l as [|z l IH]; intros [|i] [|j] Hne; simpl;
    try reflexivity; try congruence.
  apply IH. congruence.
Qed.

(** ** [get_batch_request] *)

Lemma forallb_inb_incl (l1 l2 : list string) :
  forallb (fun k => inb k l2) l1 = true <-> incl l1 l2.
Proof.
  rewrite forallb_forall. unfold incl. split; intros H k Hk.
  - apply inb_In. now apply H.
  - apply inb_In. now apply H.
Qed.

(** C3. For an asset whose options template is [template] and whose
    datasource is [ds], [get_batch_request] raises [BatchRequestError] if and
    only if [options] is not [None] and its keys are not all keys of the
    template; otherwise it returns the [BatchRequest] with the name of the
    datasource, the name of the asset and the given options, the empty
    dictionary for [None]. *)
Theorem C3_get_batch_request_validates_option_keys
    (st : Store) (self : DataAsset.t) (ds_ref : ref) (ds : Datasource.t)
    (template : BatchRequestOptions) (options : option BatchRequestOptions) :
  DataAsset.batch_request_options_template self = Ok template ->
  DataAsset._datasource self = Some ds_ref ->
  nth_error (datasources st) ds_ref = Some ds ->
  (DataAsset_get_batch_request st self options = Raise BatchRequestError <->
   exists o, options = Some o /\ ~ incl (keys o) (keys template)) /\
  ((forall o, options = Some o -> incl (keys o) (keys template)) ->
   DataAsset_get_batch_request st self options =
   Ok {| BatchRequest.datasource_name := Datasource.name ds;
         BatchRequest.data_asset_name := DataAsset.name self;
         BatchRequest.options :=
           match options with Some o => o | None => [] end |}).
Proof.
  intros Htemplate Hds Hst.
  assert (Hbuild : DataAsset_datasource st self = Ok ds).
  { unfold DataAsset_datasource. now rewrite Hds, Hst. }
  assert (Hor : options_or_empty options =
                match options with Some o => o | None => [] end).
  { destruct options as [[|kv o]|]; reflexivity. }
  unfold DataAsset_get_batch_request, DataAsset__valid_batch_request_options.
  rewrite Htemplate, Hbuild, Hor. simpl.
  destruct options as [o|]; simpl.
  - destruct (forallb (fun k => inb k (keys template)) (keys o)) eqn:E; simpl.
    + apply forallb_inb_incl in E. split.
      * split; [discriminate|]. intros [o' [[= <-] Hn]]. contradiction.
      * reflexivity.
    + assert (Hn : ~ incl (keys o) (keys template)).
      { intros Hi. apply forallb_inb_incl in Hi. congruence. }
      split.
      * split; [intros _; now exists o | reflexivity].
      * intros Hall. exfalso. apply Hn. now apply Hall.
  - split.
    + split; [discriminate|]. intros [o [[=] _]].
    + reflexivity.
Qed.

Lemma C3_witness :
  (DataAsset_get_batch_request example_store trips_asset
     (Some [("year", VInt 2020)]) = Raise BatchRequestError <->
   exists o, Some [("year", VInt 2020)] = Some o /\
             ~ incl (keys o) (keys year_month_template)) /\
  ((forall o, Some [("year", VInt 2020)] = Some o ->
              incl (keys o) (keys year_month_template)) ->
   DataAsset_get_batch_request example_store trips_asset
     (Some [("year", VInt 2020)]) =
   Ok (example_request [("year", VInt 2020)])).
Proof.
  apply (C3_get_batch_request_validates_option_keys
           example_store trips_asset 0%nat warehouse year_month_template
           (Some [("year", VInt 2020)]));
    reflexivity.
Defined.

Example get_batch_request_rejects_unknown_key :
  DataAsset_get_batch_request example_store trips_asset
    (Some [("year", VInt 2020); ("day", VInt 7)]) = Raise BatchRequestError.
Proof. reflexivity. Qed.

Example get_batch_request_without_options :
  DataAsset_get_batch_request example_store trips_asset None =
  Ok (example_request []).
Proof. reflexivity. Qed.

(** ** [get_asset], [get_batch_list_from_batch_request], [add_asset] *)


Example get_batch_list_of_trips :
  Datasource_get_batch_list_from_batch_request example_store warehouse
    (example_request []) =
  Ok [example_batch 2020 1; example_batch 2021 3].
Proof. reflexivity. Qed.

Example get_batch_list_of_unknown_asset :
  Datasource_get_batch_list_from_batch_request example_store warehouse
    {| BatchRequest.datasource_name := "warehouse";
       BatchRequest.data_asset_name := "zones";
       BatchRequest.options := [] |} =
  Raise LookupError.
Proof. reflexivity. Qed.



(** C7. After [d.add_asset(a)], [d.get_asset(a.name)] returns [a] and
    [a.datasource] is [d]; an entry registered under the same name is
    replaced in its place, a new name is added last, and no entry under
    another name changes; no other datasource and no other asset changes. *)
Theorem C7_add_asset_registers_and_owns
    (st : Store) (d a : ref) (ds : Datasource.t) (asset : DataAsset.t) :
  nth_error (datasources st) d = Some ds ->
  nth_error (data_assets st) a = Some asset ->
  exists st' ds' asset',
    Datasource_add_asset st d a = Some (a, st') /\
    nth_error (datasources st') d = Some ds' /\
    nth_error (data_assets st') a = Some asset' /\
    Datasource_get_asset ds' (DataAsset.name asset') = Ok a /\
    DataAsset._datasource asset' = Some d /\
    DataAsset_datasource st' asset' = Ok ds' /\
    DataAsset.name asset' = DataAsset.name asset /\
    (forall n, n <> DataAsset.name asset ->
       Datasource_get_asset ds' n = Datasource_get_asset ds n) /\
    (contains (DataAsset.name asset) (Datasource.assets ds) = true ->
     keys (Datasource.assets ds') = keys (Datasource.assets ds)) /\
    (contains (DataAsset.name asset) (Datasource.assets ds) = false ->
     Datasource.assets ds' =
     Datasource.assets ds ++ [(DataAsset.name asset, a)]) /\
    (forall d', d' <> d ->
       nth_error (datasources st') d' = nth_error (datasources st) d') /\
    (forall a', a' <> a ->
       nth_error (data_assets st') a' = nth_error (data_assets st) a').
Proof.
  intros Hd Ha. unfold Datasource_add_asset. rewrite Hd, Ha.
  eexists _, _, _. split; [reflexivity|]. simpl.
  split; [eapply nth_error_list_set_eq; eassumption|].
  split; [eapply nth_error_list_set_eq; eassumption|].
  split; [unfold Datasource_get_asset; simpl; now rewrite get_set_eq|].
  split; [reflexivity|].
  split.
  { unfold DataAsset_datasource. simpl.
    now rewrite (nth_error_list_set_eq _ _ _ _ Hd). }
  split; [reflexivity|].
  split.
  { intros n Hn. unfold Datasource_get_asset. simpl.
    rewrite get_set_neq by congruence. reflexivity. }
  split.
  { intros Hc. apply keys_set_present. now apply contains_true. }
  split.
  { intros Hc. apply set_fresh. now apply contains_false. }
  split.
  - intros d' Hne. apply nth_error_list_set_neq. congruence.
  - intros a' Hne. apply nth_error_list_set_neq. congruence.
Qed.

Lemma C7_witness :
  exists st' ds' asset',
    Datasource_add_asset example_store 0%nat 1%nat = Some (1%nat, st') /\
    nth_error (datasources st') 0%nat = Some ds' /\
    nth_error (data_assets st') 1%nat = Some asset' /\
    Datasource_get_asset ds' (DataAsset.name asset') = Ok 1%nat /\
    DataAsset._datasource asset' = Some 0%nat /\
    DataAsset_datasource st' asset' = Ok ds' /\
    DataAsset.name asset' = DataAsset.name zones_asset /\
    (forall n, n <> DataAsset.name zones_asset ->
       Datasource_get_asset ds' n = Datasource_get_asset warehouse n) /\
    (contains (DataAsset.name zones_asset) (Datasource.assets warehouse) = true ->
     keys (Datasource.assets ds') = keys (Datasource.assets warehouse)) /\
    (contains (DataAsset.name zones_asset) (Datasource.assets warehouse) = false ->
     Datasource.assets ds' =
     Datasource.assets warehouse ++ [(DataAsset.name zones_asset, 1%nat)]) /\
    (forall d', d' <> 0%nat ->
       nth_error (datasources st') d' = nth_error (datasources example_store) d') /\
    (forall a', a' <> 1%nat ->
       nth_error (data_assets st') a' = nth_error (data_assets example_store) a').
Proof.
  apply (C7_add_asset_registers_and_owns
           example_store 0%nat 1%nat warehouse zones_asset);
    reflexivity.
Defined.

(** [add_asset] keeps the assets registered under their own names. *)
Lemma add_asset_registered_by_name (st st' : Store) (d a : ref)
    (ds ds' : Datasource.t) :
  nth_error (datasources st) d = Some ds ->
  registered_by_name st ds ->
  Datasource_add_asset st d a = Some (a, st') ->
  nth_error (datasources st') d = Some ds' ->
  registered_by_name st' ds'.
Proof.
  intros Hd Hinv Hadd Hd'. unfold Datasource_add_asset in Hadd.
  rewrite Hd in Hadd.
  destruct (nth_error (data_assets st) a) as [asset|] eqn:Ha; [|discriminate].
  injection Hadd as <-. simpl in Hd'.
  rewrite (nth_error_list_set_eq _ _ _ _ Hd) in Hd'. injection Hd' as <-.
  intros k r. simpl.
  destruct (String.eqb_spec (DataAsset.name asset) k) as [<-|Hne].
  - rewrite get_set_eq. intros [= <-].
    eexists. split; [eapply nth_error_list_set_eq; eassumption | reflexivity].
  - rewrite get_set_neq by assumption. intros Hk.
    destruct (Hinv k r Hk) as [asset0 [Hr Hname]].
    destruct (Nat.eq_dec a r) as [->|Har].
    + exists (DataAsset.set__datasource d asset). split.
      * eapply nth_error_list_set_eq; eassumption.
      * simpl. congruence.
    + exists asset0. split; [|exact Hname].
      now rewrite nth_error_list_set_neq.
Qed.

(** ** The id of a batch *)

Lemma fold_left_append_map {A B : Type} (f : A -> B) (l : list A) (acc : list B) :
  fold_left (fun acc x => acc ++ [f x]) l acc = acc ++ map f l.
Proof.
  revert acc. induction l as [|x l IH]; intros acc; simpl.
  - now rewrite app_nil_r.
  - rewrite IH. now rewrite <- app_assoc.
Qed.

Lemma Batch__set_id_segments (ds : Datasource.t) (asset : DataAsset.t)
    (batch_request : BatchRequest.t) :
  Batch__set_id ds asset batch_request =
  String.concat "-"
    (Datasource.name ds :: DataAsset.name asset ::
     map option_segment (BatchRequest.options batch_request)).
Proof.
  unfold Batch__set_id.
  now rewrite (fold_left_append_map option_segment).
Qed.

Lemma py_eqb_eq (a b : pyval) : py_eqb a b = true -> a = b.
Proof.
  destruct a, b; simpl; try discriminate; intros H.
  - reflexivity.
  - apply Z.eqb_eq in H. now subst.
  - apply String.eqb_eq in H. now subst.
Qed.




Example Batch__set_id_example :
  Batch__set_id warehouse trips_asset
    (example_request [("year", VInt 2020); ("month", VNone)]) =
  "warehouse-trips-year_2020-month_None".
Proof. reflexivity. Qed.


(** ** [head] *)

Section HeadFacts.
Context {EngineState MetricId MetricValue : Type}.
Variable load_batch_list : list Batch.t -> EngineState -> string + EngineState.
Variable resolve_metrics :
  list MetricConfiguration -> EngineState -> string + list (MetricId * MetricValue).
Variable metric_id : MetricConfiguration -> MetricId.
Variable MetricId_eqb : MetricId -> MetricId -> bool.

Local Abbreviation head :=
  (Batch_head load_batch_list resolve_metrics metric_id MetricId_eqb).



End HeadFacts.


Example head_of_zero_rows :
  Batch_head example_load_batch_list example_resolve_metrics
    example_metric_id example_MetricId_eqb (example_batch 2020 1) 0 [] =
  Raise BatchError.
Proof. reflexivity. Qed.

(** ** Sorting *)

Lemma string_ltb_trans (s t u : string) :
  String.ltb s t = true -> String.ltb t u = true -> String.ltb s u = true.
Proof.
  unfold String.ltb.
  destruct (String.compare s t) eqn:Hst; try discriminate.
  destruct (String.compare t u) eqn:Htu; try discriminate.
  intros _ _.
  assert (H : String.compare s u = Lt).
  { apply String_as_OT.cmp_lt.
    apply String_as_OT.lt_trans with t; now apply String_as_OT.cmp_lt. }
  now rewrite H.
Qed.

Lemma string_ltb_total (s t : string) :
  String.ltb s t = false -> String.ltb t s = true \/ s = t.
Proof.
  unfold String.ltb. rewrite (String.compare_antisym t s).
  destruct (String.compare s t) eqn:Hst; simpl.
  - intros _. right. now apply String.compare_eq_iff.
  - discriminate.
  - intros _. now left.
Qed.

Lemma py_lt_trans (a b c : pyval) :
  py_lt a b = Ok true -> py_lt b c = Ok true -> py_lt a c = Ok true.
Proof.
  destruct a as [|x|s], b as [|y|t], c as [|z|u]; simpl; try discriminate.
  - intros [= H1] [= H2]. f_equal.
    apply Z.ltb_lt in H1, H2. apply Z.ltb_lt. lia.
  - intros [= H1] [= H2]. f_equal. eapply string_ltb_trans; eassumption.
Qed.

Lemma py_lt_total (a b : pyval) :
  py_lt a b = Ok false -> py_lt b a = Ok true \/ a = b.
Proof.
  destruct a as [|x|s], b as [|y|t]; simpl; try discriminate.
  - intros [= H]. apply Z.ltb_ge in H.
    destruct (Z.eq_dec x y) as [->|Hne]; [now right|].
    left. f_equal. apply Z.ltb_lt. lia.
  - intros [= H]. destruct (string_ltb_total s t H) as [Ht| ->].
    + left. now f_equal.
    + now right.
Qed.

Lemma before_trans (reverse : bool) (a b c : pyval) :
  before reverse a b -> before reverse b c -> before reverse a c.
Proof.
  unfold before, sort_lt. destruct reverse; intros H1 H2;
    eapply py_lt_trans; eassumption.
Qed.

Lemma sort_lt_total (reverse : bool) (a b : pyval) :
  sort_lt reverse a b = Ok false -> before reverse b a \/ b = a.
Proof.
  unfold before, sort_lt. destruct reverse; intros H;
    destruct (py_lt_total _ _ H) as [Hlt|Heq]; auto.
Qed.

Section SortKeyed.
Context {A : Type}.
Variable reverse : bool.
Variable R : A -> A -> Prop.

Lemma insert_keyed_Permutation (x : pyval * A) (l r : list (pyval * A)) :
  insert_keyed reverse x l = Ok r -> Permutation (x :: l) r.
Proof.
  revert r. induction l as [|y l IH]; simpl; intros r H.
  - injection H as <-. apply Permutation_refl.
  - apply bind_Ok_inv in H. destruct H as [[|] [_ H]].
    + apply bind_Ok_inv in H. destruct H as [r' [Hr' [= <-]]].
      apply perm_trans with (y :: x :: l); [apply perm_swap|].
      apply perm_skip. now apply IH.
    + injection H as <-. apply Permutation_refl.
Qed.

Lemma insert_keyed_sorted (x : pyval * A) (l r : list (pyval * A)) :
  StronglySorted (keyed_le reverse R) l ->
  Forall (fun y => R (snd x) (snd y)) l ->
  insert_keyed reverse x l = Ok r ->
  StronglySorted (keyed_le reverse R) r.
Proof.
  revert r. induction l as [|y l IH]; simpl; intros r Hs Hall H.
  - injection H as <-. repeat constructor.
  - apply bind_Ok_inv in H. destruct H as [less [Hless H]].
    inversion Hs as [|? ? Hs' Hy]; subst.
    inversion Hall as [|? ? Hxy Hall']; subst.
    destruct less.
    + apply bind_Ok_inv in H. destruct H as [r' [Hr' [= <-]]].
      constructor; [now apply IH|].
      apply (Permutation_Forall (insert_keyed_Permutation _ _ _ Hr')).
      constructor; [now left | exact Hy].
    + injection H as <-.
      assert (Hx : (keyed_le reverse R) x y).
      { destruct (sort_lt_total _ _ _ Hless) as [Hb|He]; [now left|].
        right. now split. }
      constructor; [exact Hs|]. constructor; [exact Hx|].
      rewrite Forall_forall in Hy, Hall'. apply Forall_forall. intros z Hz.
      specialize (Hy z Hz). specialize (Hall' z Hz).
      destruct Hx as [Hxy'|[Hxy' _]], Hy as [Hyz|[Hyz _]].
      * left. eapply before_trans; eassumption.
      * left. now rewrite <- Hyz.
      * left. now rewrite Hxy'.
      * right. split; [congruence | exact Hall'].
Qed.

Lemma sort_keyed_Permutation (l r : list (pyval * A)) :
  sort_keyed reverse l = Ok r -> Permutation l r.
Proof.
  revert r. induction l as [|x l IH]; simpl; intros r H.
  - injection H as <-. constructor.
  - apply bind_Ok_inv in H. destruct H as [s [Hs H]].
    apply perm_trans with (x :: s); [apply perm_skip; now apply IH|].
    now apply insert_keyed_Permutation.
Qed.

(** Sorting by key a list that is ordered by [R] leaves it ordered by key
    and, for equal keys, by [R]: the sort is stable. *)
Lemma sort_keyed_sorted (l r : list (pyval * A)) :
  StronglySorted (fun x y => R (snd x) (snd y)) l ->
  sort_keyed reverse l = Ok r ->
  StronglySorted (keyed_le reverse R) r.
Proof.
  revert r. induction l as [|x l IH]; simpl; intros r HR H.
  - injection H as <-. constructor.
  - apply bind_Ok_inv in H. destruct H as [s [Hs H]].
    inversion HR as [|? ? HR' Hx]; subst.
    apply (insert_keyed_sorted x s r); [now apply IH | | exact H].
    apply (Permutation_Forall (sort_keyed_Permutation _ _ Hs)). exact Hx.
Qed.

(** Keys of one kind can all be compared: the sort returns. *)
Variable kind : pyval -> bool.
Hypothesis kind_comparable :
  forall a b, kind a = true -> kind b = true -> exists c, py_lt a b = Ok c.

Lemma insert_keyed_returns (x : pyval * A) (l : list (pyval * A)) :
  kind (fst x) = true -> Forall (fun y => kind (fst y) = true) l ->
  exists r, insert_keyed reverse x l = Ok r.
Proof.
  intros Hx. induction l as [|y l IH]; simpl; intros Hall.
  - now eexists.
  - inversion Hall as [|? ? Hy Hall']; subst.
    assert (Hc : exists c, sort_lt reverse (fst y) (fst x) = Ok c).
    { unfold sort_lt. destruct reverse; now apply kind_comparable. }
    destruct Hc as [c ->]. simpl. destruct c; [|now eexists].
    destruct (IH Hall') as [r ->]. simpl. now eexists.
Qed.

Lemma sort_keyed_returns (l : list (pyval * A)) :
  Forall (fun y => kind (fst y) = true) l ->
  exists r, sort_keyed reverse l = Ok r.
Proof.
  induction l as [|x l IH]; simpl; intros Hall.
  - now eexists.
  - inversion Hall as [|? ? Hx Hall']; subst.
    destruct (IH Hall') as [s Hs]. rewrite Hs. simpl.
    apply insert_keyed_returns; [exact Hx|].
    apply (Permutation_Forall (sort_keyed_Permutation _ _ Hs)). exact Hall'.
Qed.

End SortKeyed.

Lemma is_int_comparable (a b : pyval) :
  is_int a = true -> is_int b = true -> exists c, py_lt a b = Ok c.
Proof. destruct a, b; simpl; try discriminate. intros _ _. now eexists. Qed.

Lemma is_str_comparable (a b : pyval) :
  is_str a = true -> is_str b = true -> exists c, py_lt a b = Ok c.
Proof. destruct a, b; simpl; try discriminate. intros _ _. now eexists. Qed.

Lemma StronglySorted_always {A : Type} (l : list A) :
  StronglySorted (fun _ _ => True) l.
Proof.
  induction l as [|x l IH]; constructor; [exact IH|].
  apply Forall_forall. intros; exact I.
Qed.

Lemma StronglySorted_of_map {A B : Type} (f : A -> B) (R : B -> B -> Prop)
    (l : list A) :
  StronglySorted R (map f l) -> StronglySorted (fun x y => R (f x) (f y)) l.
Proof.
  induction l as [|x l IH]; simpl; intros H; [constructor|].
  inversion H as [|? ? Hs Hx]; subst. constructor; [now apply IH|].
  rewrite Forall_map in Hx. exact Hx.
Qed.

Lemma StronglySorted_map_In {A B : Type} (f : A -> B) (R : A -> A -> Prop)
    (R' : B -> B -> Prop) (l : list A) :
  StronglySorted R l ->
  (forall x y, In x l -> In y l -> R x y -> R' (f x) (f y)) ->
  StronglySorted R' (map f l).
Proof.
  induction 1 as [|x l Hs IH Hx]; simpl; intros Himp; [constructor|].
  constructor.
  - apply IH. intros y z Hy Hz. apply Himp; now right.
  - apply Forall_map. rewrite Forall_forall in Hx. apply Forall_forall.
    intros y Hy. apply Himp; [now left | now right | now apply Hx].
Qed.

Lemma keyed_spec {A : Type} (key : A -> result pyval) (l : list A)
    (kl : list (pyval * A)) :
  keyed key l = Ok kl ->
  map snd kl = l /\ Forall (fun x => key (snd x) = Ok (fst x)) kl.
Proof.
  revert kl. induction l as [|x l IH]; simpl; intros kl H.
  - injection H as <-. split; constructor.
  - apply bind_Ok_inv in H. destruct H as [k [Hk H]].
    apply bind_Ok_inv in H. destruct H as [rest [Hrest [= <-]]].
    destruct (IH rest Hrest) as [Hmap Hall]. simpl. split.
    + now rewrite Hmap.
    + constructor; assumption.
Qed.

Lemma keyed_returns {A : Type} (key : A -> result pyval)
    (kind : pyval -> bool) (l : list A) :
  Forall (fun x => exists v, key x = Ok v /\ kind v = true) l ->
  exists kl,
    keyed key l = Ok kl /\ Forall (fun y => kind (fst y) = true) kl.
Proof.
  induction 1 as [|x l [v [Hv Hk]] _ [kl [Hkl Hall]]]; simpl.
  - exists []. split; constructor.
  - rewrite Hv, Hkl. simpl. exists ((v, x) :: kl). split; [reflexivity|].
    now constructor.
Qed.

Lemma metadata_item_Ok (key : string) (b : Batch.t) (v : pyval) :
  metadata_item key b = Ok v <-> get key (Batch.metadata b) = Some v.
Proof.
  unfold metadata_item. destruct (get key (Batch.metadata b)).
  - split; intros [= ->]; reflexivity.
  - split; discriminate.
Qed.

(** One pass of the loop: sorting by the key of [sorter] a list that is in
    the order of the sorters [rest] puts it in the order of
    [sorter :: rest]. *)
Lemma list_sort_stage (sorter : BatchSorter.t) (rest : list BatchSorter.t)
    (l l' : list Batch.t) :
  StronglySorted (lex_le rest) l ->
  list_sort (metadata_item (BatchSorter.key sorter))
    (BatchSorter.reverse sorter) l = Ok l' ->
  Permutation l l' /\ StronglySorted (lex_le (sorter :: rest)) l'.
Proof.
  intros Hs H. unfold list_sort in H.
  apply bind_Ok_inv in H. destruct H as [kl [Hkl H]].
  apply bind_Ok_inv in H. destruct H as [sl [Hsl [= <-]]].
  destruct (keyed_spec _ _ _ Hkl) as [Hmap Hkeys].
  pose proof (sort_keyed_Permutation _ _ _ Hsl) as Hperm.
  split.
  - rewrite <- Hmap. now apply Permutation_map.
  - rewrite <- Hmap in Hs. apply StronglySorted_of_map in Hs.
    pose proof (sort_keyed_sorted _ (lex_le rest) _ _ Hs Hsl) as Hsorted.
    pose proof (Permutation_Forall Hperm Hkeys) as Hkeys'.
    rewrite Forall_forall in Hkeys'.
    eapply StronglySorted_map_In; [exact Hsorted|].
    intros x y Hx Hy Hle. simpl.
    exists (fst x), (fst y).
    split; [apply metadata_item_Ok; now apply Hkeys'|].
    split; [apply metadata_item_Ok; now apply Hkeys'|].
    exact Hle.
Qed.

Lemma sort_batches_loop_app (s1 s2 : list BatchSorter.t) (l : list Batch.t) :
  sort_batches_loop (s1 ++ s2) l =
  (l1 <- sort_batches_loop s1 l ;; sort_batches_loop s2 l1).
Proof.
  revert l. induction s1 as [|s s1 IH]; intros l; simpl; [reflexivity|].
  destruct (list_sort _ _ l) as [l1|e]; simpl; [apply IH | reflexivity].
Qed.

(** The passes, from the last sorter to the first, leave the list in the
    lexicographic order of the sorters. *)
Lemma sort_batches_loop_sorted (order_by : list BatchSorter.t) :
  forall l l',
    sort_batches_loop (rev order_by) l = Ok l' ->
    Permutation l l' /\ StronglySorted (lex_le order_by) l'.
Proof.
  induction order_by as [|sorter rest IH]; simpl; intros l l' H.
  - injection H as <-. split; [apply Permutation_refl|].
    apply StronglySorted_always.
  - rewrite sort_batches_loop_app in H.
    apply bind_Ok_inv in H. destruct H as [l1 [Hl1 H]].
    simpl in H. apply bind_Ok_inv in H. destruct H as [l2 [Hl2 [= <-]]].
    destruct (IH l l1 Hl1) as [Hperm Hsorted].
    destruct (list_sort_stage sorter rest l1 l2 Hsorted Hl2) as [Hperm' Hs'].
    split; [|exact Hs']. eapply perm_trans; eassumption.
Qed.

Lemma list_sort_returns (kind : pyval -> bool) (key : string) (reverse : bool)
    (l : list Batch.t) :
  (forall a b, kind a = true -> kind b = true -> exists c, py_lt a b = Ok c) ->
  all_have kind key l ->
  exists l', list_sort (metadata_item key) reverse l = Ok l'.
Proof.
  intros Hcmp Hall. unfold list_sort.
  destruct (keyed_returns (metadata_item key) kind l) as [kl [Hkl Hkinds]].
  { eapply Forall_impl; [|exact Hall]. intros b [v [Hv Hk]].
    exists v. split; [now apply metadata_item_Ok | exact Hk]. }
  rewrite Hkl. simpl.
  destruct (sort_keyed_returns reverse kind Hcmp kl Hkinds) as [sl ->].
  simpl. now eexists.
Qed.

Lemma sort_batches_loop_returns (order_by : list BatchSorter.t) :
  forall l,
    sortable order_by l ->
    exists l', sort_batches_loop (rev order_by) l = Ok l'.
Proof.
  induction order_by as [|sorter rest IH]; simpl; intros l Hs.
  - now eexists.
  - inversion Hs as [|? ? Hsorter Hrest]; subst.
    destruct (IH l Hrest) as [l1 Hl1].
    rewrite sort_batches_loop_app, Hl1. simpl.
    destruct (sort_batches_loop_sorted rest l l1 Hl1) as [Hperm _].
    assert (Hret : exists l2,
      list_sort (metadata_item (BatchSorter.key sorter))
        (BatchSorter.reverse sorter) l1 = Ok l2).
    { destruct Hsorter as [Hint|Hstr].
      - apply (list_sort_returns is_int); [exact is_int_comparable|].
        exact (Permutation_Forall Hperm Hint).
      - apply (list_sort_returns is_str); [exact is_str_comparable|].
        exact (Permutation_Forall Hperm Hstr). }
    destruct Hret as [l2 ->]. simpl. now eexists.
Qed.

(** C5. When [sort_batches] returns, the list holds the same batches, in
    the lexicographic order of the metadata values at the keys of
    [order_by]: [order_by[0]] is the most significant key, and each key
    ascends unless the [reverse] flag of its sorter is set. It returns
    whenever the batches hold, under each key, integers or strings. The
    string sorter ["-k"] is the key [k] descending, ["+k"] and a [k] that
    starts with neither sign are the key [k] ascending. *)
Theorem C5_sort_batches_orders_lexicographically
    (self : DataAsset.t) (batch_list : list Batch.t) (k : string) :
  (forall sorted,
     DataAsset_sort_batches self batch_list = Ok sorted ->
     Permutation batch_list sorted /\
     StronglySorted (lex_le (DataAsset.order_by self)) sorted) /\
  (sortable (DataAsset.order_by self) batch_list ->
   exists sorted, DataAsset_sort_batches self batch_list = Ok sorted) /\
  _batch_sorter_from_str (String "-" k) =
    Ok {| BatchSorter.key := k; BatchSorter.reverse := true |} /\
  _batch_sorter_from_str (String "+" k) =
    Ok {| BatchSorter.key := k; BatchSorter.reverse := false |} /\
  (forall c rest,
     k = String c rest -> c <> "-"%char -> c <> "+"%char ->
     _batch_sorter_from_str k =
       Ok {| BatchSorter.key := k; BatchSorter.reverse := false |}).
Proof.
  split; [|split; [|split; [|split]]].
  - intros sorted. apply sort_batches_loop_sorted.
  - apply sort_batches_loop_returns.
  - reflexivity.
  - reflexivity.
  - intros c rest -> Hminus Hplus. simpl.
    destruct (Ascii.eqb_spec c "-"); [contradiction|].
    destruct (Ascii.eqb_spec c "+"); [contradiction|].
    reflexivity.
Qed.

Lemma C5_witness :
  Permutation unsorted_batches
    [ example_batch 2021 3; example_batch 2021 12; example_batch 2020 1;
      example_batch 2020 7 ] /\
  StronglySorted (lex_le (DataAsset.order_by trips_asset))
    [ example_batch 2021 3; example_batch 2021 12; example_batch 2020 1;
      example_batch 2020 7 ].
Proof.
  apply (proj1 (C5_sort_batches_orders_lexicographically
                  trips_asset unsorted_batches "year")).
  reflexivity.
Defined.

Example sort_batches_example :
  DataAsset_sort_batches trips_asset unsorted_batches =
  Ok [ example_batch 2021 3; example_batch 2021 12; example_batch 2020 1;
       example_batch 2020 7 ].
Proof. reflexivity. Qed.

Example sort_batches_missing_key :
  DataAsset_sort_batches trips_asset
    [ example_batch 2020 7;
      {| Batch.datasource := 0%nat; Batch.data_asset := 0%nat;
         Batch.batch_request := example_request [];
         Batch.data := 0%nat; Batch.id := "";
         Batch.metadata := [("year", VInt 2020)] |} ] =
  Raise KeyError.
Proof. reflexivity. Qed.

End InterfacesFacts.

(* ================================================================== *)
(** * Further properties of the object model *)

Section InterfacesMore.
Import Interfaces.

(** ** Batch requests *)

Lemma DataAsset_datasource_Ok (st : Store) (self : DataAsset.t)
    (ds_ref : ref) (ds : Datasource.t) :
  DataAsset._datasource self = Some ds_ref ->
  nth_error (datasources st) ds_ref = Some ds ->
  DataAsset_datasource st self = Ok ds.
Proof. intros H1 H2. unfold DataAsset_datasource. now rewrite H1, H2. Qed.

Lemma options_or_empty_Some (o : BatchRequestOptions) :
  options_or_empty (Some o) = o.
Proof. now destruct o. Qed.

(** What [get_batch_request] returns when it returns. *)
Lemma get_batch_request_Ok_inv (st : Store) (self : DataAsset.t)
    (options : option BatchRequestOptions) (br : BatchRequest.t) :
  DataAsset_get_batch_request st self options = Ok br ->
  exists ds,
    DataAsset_datasource st self = Ok ds /\
    br = {| BatchRequest.datasource_name := Datasource.name ds;
            BatchRequest.data_asset_name := DataAsset.name self;
            BatchRequest.options := options_or_empty options |} /\
    (forall o, options = Some o ->
       DataAsset__valid_batch_request_options self o = Ok true).
Proof.
  unfold DataAsset_get_batch_request. intros H.
  apply bind_Ok_inv in H. destruct H as [invalid [Hinv H]].
  destruct invalid; [discriminate|].
  apply bind_Ok_inv in H. destruct H as [ds [Hds [= <-]]].
  exists ds. split; [exact Hds|]. split; [reflexivity|].
  intros o ->. apply bind_Ok_inv in Hinv. destruct Hinv as [valid [Hv [= Hn]]].
  destruct valid; [exact Hv | discriminate].
Qed.

(** A batch request built by [get_batch_request] passes
    [_validate_batch_request] of the same asset. *)
Theorem get_batch_request_passes_validation
    (st : Store) (self : DataAsset.t) (template : BatchRequestOptions)
    (options : option BatchRequestOptions) (br : BatchRequest.t) :
  DataAsset.batch_request_options_template self = Ok template ->
  DataAsset_get_batch_request st self options = Ok br ->
  DataAsset__validate_batch_request st self br = Ok tt.
Proof.
  intros Ht H. apply get_batch_request_Ok_inv in H.
  destruct H as [ds [Hds [-> Hvalid]]].
  unfold DataAsset__validate_batch_request. rewrite Hds. simpl.
  rewrite !String.eqb_refl.
  destruct options as [o|].
  - rewrite options_or_empty_Some, (Hvalid o eq_refl). reflexivity.
  - unfold DataAsset__valid_batch_request_options. now rewrite Ht.
Qed.

Lemma get_batch_request_passes_validation_witness :
  DataAsset__validate_batch_request example_store trips_asset
    (example_request [("month", VInt 3)]) = Ok tt.
Proof.
  apply (get_batch_request_passes_validation
           example_store trips_asset year_month_template
           (Some [("month", VInt 3)]));
    reflexivity.
Defined.

(** [_validate_batch_request] accepts a request exactly when it names the
    datasource of the asset and the asset and its option keys are keys of
    the template; every other request raises [BatchRequestError]. *)
Theorem validate_batch_request_accepts_iff
    (st : Store) (self : DataAsset.t) (ds_ref : ref) (ds : Datasource.t)
    (template : BatchRequestOptions) (br : BatchRequest.t) :
  DataAsset.batch_request_options_template self = Ok template ->
  DataAsset._datasource self = Some ds_ref ->
  nth_error (datasources st) ds_ref = Some ds ->
  (DataAsset__validate_batch_request st self br = Ok tt <->
   BatchRequest.datasource_name br = Datasource.name ds /\
   BatchRequest.data_asset_name br = DataAsset.name self /\
   incl (keys (BatchRequest.options br)) (keys template)) /\
  (DataAsset__validate_batch_request st self br <> Ok tt ->
   DataAsset__validate_batch_request st self br = Raise BatchRequestError).
Proof.
  intros Ht Hd Hst.
  pose proof (DataAsset_datasource_Ok st self ds_ref ds Hd Hst) as Hds.
  unfold DataAsset__validate_batch_request,
    DataAsset__valid_batch_request_options.
  rewrite Hds, Ht. simpl.
  destruct (String.eqb_spec (BatchRequest.datasource_name br)
              (Datasource.name ds)) as [E1|N1]; simpl.
  - destruct (String.eqb_spec (BatchRequest.data_asset_name br)
                (DataAsset.name self)) as [E2|N2]; simpl.
    + destruct (forallb (fun k => inb k (keys template))
                  (keys (BatchRequest.options br))) eqn:E3; simpl.
      * apply forallb_inb_incl in E3. split; [|congruence].
        split; [now intros _ | reflexivity].
      * split; [|reflexivity]. split; [discriminate|].
        intros [_ [_ Hi]]. apply forallb_inb_incl in Hi. congruence.
    + split; [|reflexivity]. split; [discriminate | intros [_ [E _]]; contradiction].
  - split; [|reflexivity]. split; [discriminate | intros [E _]; contradiction].
Qed.

Lemma validate_batch_request_accepts_iff_witness :
  (DataAsset__validate_batch_request example_store trips_asset
     (example_request [("day", VInt 1)]) = Ok tt <->
   BatchRequest.datasource_name (example_request [("day", VInt 1)])
     = Datasource.name warehouse /\
   BatchRequest.data_asset_name (example_request [("day", VInt 1)])
     = DataAsset.name trips_asset /\
   incl (keys (BatchRequest.options (example_request [("day", VInt 1)])))
     (keys year_month_template)) /\
  (DataAsset__validate_batch_request example_store trips_asset
     (example_request [("day", VInt 1)]) <> Ok tt ->
   DataAsset__validate_batch_request example_store trips_asset
     (example_request [("day", VInt 1)]) = Raise BatchRequestError).
Proof.
  apply (validate_batch_request_accepts_iff
           example_store trips_asset 0%nat warehouse year_month_template);
    reflexivity.
Defined.

(** Without options [get_batch_request] does not read the options
    template: it returns the request with the empty options even when the
    template raises, as that of the abstract base class does. With options,
    what the template raises is raised. *)
Theorem get_batch_request_reads_template_only_for_options
    (st : Store) (self : DataAsset.t) (ds : Datasource.t) :
  DataAsset_datasource st self = Ok ds ->
  DataAsset_get_batch_request st self None =
  Ok {| BatchRequest.datasource_name := Datasource.name ds;
        BatchRequest.data_asset_name := DataAsset.name self;
        BatchRequest.options := [] |} /\
  (forall e o,
     DataAsset.batch_request_options_template self = Raise e ->
     DataAsset_get_batch_request st self (Some o) = Raise e).
Proof.
  intros Hds. unfold DataAsset_get_batch_request. split.
  - simpl. now rewrite Hds.
  - intros e o He. unfold DataAsset__valid_batch_request_options.
    now rewrite He.
Qed.

Lemma get_batch_request_reads_template_only_for_options_witness :
  DataAsset_get_batch_request example_store abstract_asset None =
  Ok {| BatchRequest.datasource_name := Datasource.name warehouse;
        BatchRequest.data_asset_name := DataAsset.name abstract_asset;
        BatchRequest.options := [] |} /\
  (forall e o,
     DataAsset.batch_request_options_template abstract_asset = Raise e ->
     DataAsset_get_batch_request example_store abstract_asset (Some o) =
     Raise e).
Proof.
  apply (get_batch_request_reads_template_only_for_options
           example_store abstract_asset warehouse).
  reflexivity.
Defined.

(** An asset that was not added to a datasource builds no batch request:
    option keys outside the template are reported first, as
    [BatchRequestError]; otherwise reading the datasource raises
    [AttributeError]. *)
Theorem get_batch_request_of_unattached_asset
    (st : Store) (self : DataAsset.t) (template : BatchRequestOptions)
    (options : option BatchRequestOptions) :
  DataAsset._datasource self = None ->
  DataAsset.batch_request_options_template self = Ok template ->
  ((exists o, options = Some o /\ ~ incl (keys o) (keys template)) ->
   DataAsset_get_batch_request st self options = Raise BatchRequestError) /\
  ((forall o, options = Some o -> incl (keys o) (keys template)) ->
   DataAsset_get_batch_request st self options = Raise AttributeError).
Proof.
  intros Hd Ht.
  unfold DataAsset_get_batch_request, DataAsset__valid_batch_request_options,
    DataAsset_datasource.
  rewrite Hd, Ht. destruct options as [o|]; simpl.
  - destruct (forallb (fun k => inb k (keys template)) (keys o)) eqn:E; simpl.
    + apply forallb_inb_incl in E. split; [|reflexivity].
      intros [o' [[= <-] Hn]]. contradiction.
    + split; [reflexivity|]. intros Hall.
      specialize (Hall o eq_refl). apply forallb_inb_incl in Hall. congruence.
  - split; [|reflexivity]. intros [o [[=] _]].
Qed.

Lemma get_batch_request_of_unattached_asset_witness :
  ((exists o, Some [("day", VInt 1)] = Some o /\ ~ incl (keys o) (keys ([] : BatchRequestOptions))) ->
   DataAsset_get_batch_request example_store zones_asset
     (Some [("day", VInt 1)]) = Raise BatchRequestError) /\
  ((forall o, Some [("day", VInt 1)] = Some o -> incl (keys o) (keys ([] : BatchRequestOptions))) ->
   DataAsset_get_batch_request example_store zones_asset
     (Some [("day", VInt 1)]) = Raise AttributeError).
Proof.
  apply (get_batch_request_of_unattached_asset
           example_store zones_asset [] (Some [("day", VInt 1)]));
    reflexivity.
Defined.

(** ** Adding assets *)

(** What [add_asset] leaves in the store. *)
Lemma add_asset_Some (st : Store) (d a : ref) (ds : Datasource.t)
    (asset : DataAsset.t) :
  nth_error (datasources st) d = Some ds ->
  nth_error (data_assets st) a = Some asset ->
  exists st',
    Datasource_add_asset st d a = Some (a, st') /\
    nth_error (datasources st') d =
      Some (Datasource.set_assets
              (set (DataAsset.name asset) a (Datasource.assets ds)) ds) /\
    nth_error (data_assets st') a = Some (DataAsset.set__datasource d asset) /\
    (forall d', d' <> d ->
       nth_error (datasources st') d' = nth_error (datasources st) d') /\
    (forall a', a' <> a ->
       nth_error (data_assets st') a' = nth_error (data_assets st) a').
Proof.
  intros Hd Ha. unfold Datasource_add_asset. rewrite Hd, Ha.
  eexists. split; [reflexivity|]. simpl.
  split; [eapply nth_error_list_set_eq; eassumption|].
  split; [eapply nth_error_list_set_eq; eassumption|].
  split; intros x Hne; apply nth_error_list_set_neq; congruence.
Qed.

(** Once an asset is added to a datasource, a batch request that the asset
    builds names the datasource and the asset, and the datasource answers it
    with the batch list of that asset. *)
Theorem added_asset_answers_its_batch_requests
    (st : Store) (d a : ref) (ds : Datasource.t) (asset : DataAsset.t)
    (template : BatchRequestOptions) (options : option BatchRequestOptions) :
  nth_error (datasources st) d = Some ds ->
  nth_error (data_assets st) a = Some asset ->
  DataAsset.batch_request_options_template asset = Ok template ->
  (forall o, options = Some o -> incl (keys o) (keys template)) ->
  exists st' ds' asset' br,
    Datasource_add_asset st d a = Some (a, st') /\
    nth_error (datasources st') d = Some ds' /\
    nth_error (data_assets st') a = Some asset' /\
    DataAsset_get_batch_request st' asset' options = Ok br /\
    BatchRequest.datasource_name br = Datasource.name ds /\
    BatchRequest.data_asset_name br = DataAsset.name asset /\
    Datasource_get_batch_list_from_batch_request st' ds' br =
    DataAsset.get_batch_list_from_batch_request asset br.
Proof.
  intros Hd Ha Ht Hvalid.
  destruct (add_asset_Some st d a ds asset Hd Ha)
    as [st' [Hadd [Hd' [Ha' _]]]].
  eexists st', _, _, _. split; [exact Hadd|].
  split; [exact Hd'|]. split; [exact Ha'|].
  assert (Hreq :
    DataAsset_get_batch_request st' (DataAsset.set__datasource d asset) options =
    Ok {| BatchRequest.datasource_name := Datasource.name ds;
          BatchRequest.data_asset_name := DataAsset.name asset;
          BatchRequest.options := options_or_empty options |}).
  { unfold DataAsset_get_batch_request, DataAsset__valid_batch_request_options,
      DataAsset_datasource.
    simpl. rewrite Ht, Hd'. destruct options as [o|]; simpl; [|reflexivity].
    specialize (Hvalid o eq_refl). apply forallb_inb_incl in Hvalid.
    now rewrite Hvalid. }
  split; [exact Hreq|]. split; [reflexivity|]. split; [reflexivity|].
  unfold Datasource_get_batch_list_from_batch_request, Datasource_get_asset.
  simpl. rewrite get_set_eq. simpl. now rewrite Ha'.
Qed.

Lemma added_asset_answers_its_batch_requests_witness :
  exists st' ds' asset' br,
    Datasource_add_asset example_store 0%nat 1%nat = Some (1%nat, st') /\
    nth_error (datasources st') 0%nat = Some ds' /\
    nth_error (data_assets st') 1%nat = Some asset' /\
    DataAsset_get_batch_request st' asset' None = Ok br /\
    BatchRequest.datasource_name br = Datasource.name warehouse /\
    BatchRequest.data_asset_name br = DataAsset.name zones_asset /\
    Datasource_get_batch_list_from_batch_request st' ds' br =
    DataAsset.get_batch_list_from_batch_request zones_asset br.
Proof.
  apply (added_asset_answers_its_batch_requests
           example_store 0%nat 1%nat warehouse zones_asset [] None);
    try reflexivity.
  discriminate.
Defined.

(** [add_asset] never takes an asset out of the datasource that held it:
    after the asset is added to a first and then to a second datasource,
    both return it from [get_asset], and its datasource is the second. *)
Theorem add_asset_to_second_datasource_keeps_first_entry
    (st : Store) (d1 d2 a : ref) (ds1 ds2 : Datasource.t)
    (asset : DataAsset.t) :
  d1 <> d2 ->
  nth_error (datasources st) d1 = Some ds1 ->
  nth_error (datasources st) d2 = Some ds2 ->
  nth_error (data_assets st) a = Some asset ->
  exists st1 st2 ds1' ds2' asset',
    Datasource_add_asset st d1 a = Some (a, st1) /\
    Datasource_add_asset st1 d2 a = Some (a, st2) /\
    nth_error (datasources st2) d1 = Some ds1' /\
    nth_error (datasources st2) d2 = Some ds2' /\
    nth_error (data_assets st2) a = Some asset' /\
    Datasource_get_asset ds1' (DataAsset.name asset) = Ok a /\
    Datasource_get_asset ds2' (DataAsset.name asset) = Ok a /\
    DataAsset._datasource asset' = Some d2 /\
    DataAsset_datasource st2 asset' = Ok ds2'.
Proof.
  intros Hne Hd1 Hd2 Ha.
  destruct (add_asset_Some st d1 a ds1 asset Hd1 Ha)
    as [st1 [Hadd1 [Hd1' [Ha1 [Hother1 _]]]]].
  assert (Hd2' : nth_error (datasources st1) d2 = Some ds2).
  { rewrite Hother1 by congruence. exact Hd2. }
  destruct (add_asset_Some st1 d2 a ds2 _ Hd2' Ha1)
    as [st2 [Hadd2 [Hd2'' [Ha2 [Hother2 _]]]]].
  eexists st1, st2, _, _, _.
  split; [exact Hadd1|]. split; [exact Hadd2|].
  split; [rewrite Hother2 by congruence; exact Hd1'|].
  split; [exact Hd2''|]. split; [exact Ha2|].
  unfold Datasource_get_asset, DataAsset_datasource. simpl.
  rewrite !get_set_eq, Hd2''. repeat split; reflexivity.
Qed.

Lemma add_asset_to_second_datasource_keeps_first_entry_witness :
  exists st1 st2 ds1' ds2' asset',
    Datasource_add_asset two_datasources 0%nat 0%nat = Some (0%nat, st1) /\
    Datasource_add_asset st1 1%nat 0%nat = Some (0%nat, st2) /\
    nth_error (datasources st2) 0%nat = Some ds1' /\
    nth_error (datasources st2) 1%nat = Some ds2' /\
    nth_error (data_assets st2) 0%nat = Some asset' /\
    Datasource_get_asset ds1' (DataAsset.name zones_asset) = Ok 0%nat /\
    Datasource_get_asset ds2' (DataAsset.name zones_asset) = Ok 0%nat /\
    DataAsset._datasource asset' = Some 1%nat /\
    DataAsset_datasource st2 asset' = Ok ds2'.
Proof.
  apply (add_asset_to_second_datasource_keeps_first_entry
           two_datasources 0%nat 1%nat 0%nat lake archive zones_asset);
    try reflexivity.
  discriminate.
Defined.

(** [add_asset] keeps the assets of a datasource registered under their own
    names. *)
Theorem add_asset_keeps_assets_under_their_names
    (st st' : Store) (d a : ref) (ds ds' : Datasource.t) :
  nth_error (datasources st) d = Some ds ->
  registered_by_name st ds ->
  Datasource_add_asset st d a = Some (a, st') ->
  nth_error (datasources st') d = Some ds' ->
  nth_error (datasources st') d = Some ds' /\ registered_by_name st' ds'.
Proof.
  intros Hd Hinv Hadd Hd'. split; [exact Hd'|]. unfold Datasource_add_asset in Hadd.
  rewrite Hd in Hadd.
  destruct (nth_error (data_assets st) a) as [asset|] eqn:Ha; [|discriminate].
  injection Hadd as <-. simpl in Hd'.
  rewrite (nth_error_list_set_eq _ _ _ _ Hd) in Hd'. injection Hd' as <-.
  intros k r. simpl.
  destruct (String.eqb_spec (DataAsset.name asset) k) as [<-|Hne].
  - rewrite get_set_eq. intros [= <-].
    eexists. split; [eapply nth_error_list_set_eq; eassumption | reflexivity].
  - rewrite get_set_neq by assumption. intros Hk.
    destruct (Hinv k r Hk) as [asset0 [Hr Hname]].
    destruct (Nat.eq_dec a r) as [->|Har].
    + exists (DataAsset.set__datasource d asset). split.
      * eapply nth_error_list_set_eq; eassumption.
      * simpl. congruence.
    + exists asset0. split; [|exact Hname].
      now rewrite nth_error_list_set_neq.
Qed.

Lemma add_asset_keeps_assets_under_their_names_witness :
  nth_error (datasources store_with_zones) 0%nat = Some warehouse_with_zones /\
  registered_by_name store_with_zones warehouse_with_zones.
Proof.
  apply (add_asset_keeps_assets_under_their_names
           example_store store_with_zones 0%nat 1%nat
           warehouse warehouse_with_zones);
    try reflexivity.
  intros k r. simpl. destruct (String.eqb_spec k "trips") as [->|_].
  - intros [= <-]. now exists trips_asset.
  - discriminate.
Defined.

(** ** More on sorting *)

Lemma py_lt_irrefl (a : pyval) : py_lt a a <> Ok true.
Proof.
  destruct a as [|x|t]; simpl; try discriminate.
  - rewrite Z.ltb_irrefl. discriminate.
  - unfold String.ltb. pose proof (String.compare_antisym t t) as H.
    destruct (String.compare t t); simpl in H; discriminate.
Qed.

Lemma sort_lt_irrefl (reverse : bool) (a : pyval) :
  sort_lt reverse a a <> Ok true.
Proof. unfold sort_lt. destruct reverse; apply py_lt_irrefl. Qed.

Lemma sort_lt_Raise (reverse : bool) (a b : pyval) (e : exn) :
  sort_lt reverse a b = Raise e -> e = TypeError.
Proof.
  unfold sort_lt, py_lt.
  destruct reverse, a, b; simpl; intros [= <-] || discriminate; reflexivity.
Qed.

Section StableSort.
Context {A : Type}.
Variable reverse : bool.
Variable q : A -> bool.
Variable k0 : pyval.

Local Abbreviation chosen := (fun y : pyval * A => q (snd y)).
Local Abbreviation chosen_have_k0 :=
  (Forall (fun y : pyval * A => q (snd y) = true -> fst y = k0)).

Lemma insert_keyed_filter (x : pyval * A) (l r : list (pyval * A)) :
  chosen_have_k0 (x :: l) ->
  insert_keyed reverse x l = Ok r ->
  filter chosen r = filter chosen (x :: l).
Proof.
  revert r. induction l as [|y l IH]; simpl; intros r Hall H.
  - now injection H as <-.
  - apply bind_Ok_inv in H. destruct H as [less [Hless H]].
    inversion Hall as [|? ? Hx Hall']; subst.
    inversion Hall' as [|? ? Hy Hall'']; subst.
    destruct less; [|now injection H as <-].
    apply bind_Ok_inv in H. destruct H as [r' [Hr' [= <-]]].
    simpl. rewrite (IH r') by (try constructor; assumption). simpl.
    destruct (q (snd x)) eqn:Qx, (q (snd y)) eqn:Qy; try reflexivity.
    exfalso. rewrite (Hx eq_refl), (Hy eq_refl) in Hless.
    exact (sort_lt_irrefl _ _ Hless).
Qed.

Lemma sort_keyed_filter (l r : list (pyval * A)) :
  chosen_have_k0 l ->
  sort_keyed reverse l = Ok r ->
  filter chosen r = filter chosen l.
Proof.
  revert r. induction l as [|x l IH]; simpl; intros r Hall H.
  - now injection H as <-.
  - apply bind_Ok_inv in H. destruct H as [s [Hs H]].
    inversion Hall as [|? ? Hx Hall']; subst.
    rewrite (insert_keyed_filter x s r); [|constructor; [exact Hx|]|exact H].
    + simpl. now rewrite (IH s Hall' Hs).
    + exact (Permutation_Forall (sort_keyed_Permutation _ _ _ Hs) Hall').
Qed.

Lemma insert_keyed_Raise (x : pyval * A) (l : list (pyval * A)) (e : exn) :
  insert_keyed reverse x l = Raise e -> e = TypeError.
Proof.
  induction l as [|y l IH]; simpl; [discriminate|].
  destruct (sort_lt reverse (fst y) (fst x)) as [less|e'] eqn:Hless; simpl.
  - destruct less; [|discriminate].
    destruct (insert_keyed reverse x l) as [r|e'']; simpl; [discriminate|].
    intros [= <-]. now apply IH.
  - intros [= <-]. eapply sort_lt_Raise; eassumption.
Qed.

Lemma sort_keyed_Raise (l : list (pyval * A)) (e : exn) :
  sort_keyed reverse l = Raise e -> e = TypeError.
Proof.
  induction l as [|x l IH]; simpl; [discriminate|].
  destruct (sort_keyed reverse l) as [s|e']; simpl.
  - apply insert_keyed_Raise.
  - intros [= <-]. now apply IH.
Qed.

End StableSort.

Lemma filter_map_snd {A B : Type} (q : B -> bool) (l : list (A * B)) :
  filter q (map snd l) = map snd (filter (fun y => q (snd y)) l).
Proof.
  induction l as [|y l IH]; simpl; [reflexivity|].
  destruct (q (snd y)); simpl; now rewrite IH.
Qed.

Lemma same_value_eq (a b : option pyval) : same_value a b = true -> a = b.
Proof.
  destruct a, b; simpl; try discriminate; [|reflexivity].
  intros H. now rewrite (py_eqb_eq _ _ H).
Qed.

(** One pass keeps the order of the batches that hold one and the same
    value under the key of the pass. *)
Lemma list_sort_filter (q : Batch.t -> bool) (key : string) (reverse : bool)
    (value : option pyval) (l l' : list Batch.t) :
  (forall b, q b = true -> get key (Batch.metadata b) = value) ->
  list_sort (metadata_item key) reverse l = Ok l' ->
  filter q l' = filter q l.
Proof.
  intros Hq H. unfold list_sort in H.
  apply bind_Ok_inv in H. destruct H as [kl [Hkl H]].
  apply bind_Ok_inv in H. destruct H as [sl [Hsl [= <-]]].
  destruct (keyed_spec _ _ _ Hkl) as [Hmap Hkeys].
  rewrite <- Hmap, !filter_map_snd. f_equal.
  apply (sort_keyed_filter reverse q
           (match value with Some v => v | None => VNone end)); [|exact Hsl].
  eapply Forall_impl; [|exact Hkeys]. intros y Hy Hqy.
  apply metadata_item_Ok in Hy. rewrite (Hq _ Hqy) in Hy. now subst value.
Qed.

Lemma sort_batches_loop_filter (q : Batch.t -> bool) (b0 : Batch.t)
    (sorters : list BatchSorter.t) :
  (forall sorter b,
     In sorter sorters -> q b = true ->
     get (BatchSorter.key sorter) (Batch.metadata b) =
     get (BatchSorter.key sorter) (Batch.metadata b0)) ->
  forall l l',
    sort_batches_loop sorters l = Ok l' -> filter q l' = filter q l.
Proof.
  induction sorters as [|sorter rest IH]; simpl; intros Hq l l' H.
  - now injection H as <-.
  - apply bind_Ok_inv in H. destruct H as [l1 [Hl1 H]].
    rewrite (IH (fun s b Hs => Hq s b (or_intror Hs)) l1 l' H).
    eapply list_sort_filter; [|exact Hl1].
    intros b Hb. apply (Hq sorter b); [now left | exact Hb].
Qed.

(** [sort_batches] is stable: the batches that hold, under every key of
    [order_by], the values that a batch [b0] holds are left in the order they
    were in. *)
Theorem sort_batches_keeps_order_of_ties
    (self : DataAsset.t) (batch_list sorted : list Batch.t) (b0 : Batch.t) :
  DataAsset_sort_batches self batch_list = Ok sorted ->
  filter (same_keys (DataAsset.order_by self) b0) sorted =
  filter (same_keys (DataAsset.order_by self) b0) batch_list.
Proof.
  intros H. unfold DataAsset_sort_batches in H.
  eapply (sort_batches_loop_filter _ b0); [|exact H].
  intros sorter b Hin Hb. apply in_rev in Hin.
  unfold same_keys in Hb. rewrite forallb_forall in Hb.
  now apply same_value_eq, Hb.
Qed.

Lemma sort_batches_keeps_order_of_ties_witness :
  filter (same_keys (DataAsset.order_by trips_asset) (january_batch 1))
    [ example_batch 2021 3; january_batch 1; january_batch 2;
      example_batch 2020 7 ] =
  filter (same_keys (DataAsset.order_by trips_asset) (january_batch 1))
    [ january_batch 1; example_batch 2020 7; example_batch 2021 3;
      january_batch 2 ].
Proof.
  apply (sort_batches_keeps_order_of_ties trips_asset
           [ january_batch 1; example_batch 2020 7; example_batch 2021 3;
             january_batch 2 ]).
  reflexivity.
Defined.

Lemma keyed_metadata_Raise (key : string) (l : list Batch.t) (e : exn) :
  keyed (metadata_item key) l = Raise e -> e = KeyError.
Proof.
  induction l as [|b l IH]; simpl; [discriminate|].
  unfold metadata_item at 1.
  destruct (get key (Batch.metadata b)); simpl; [|now intros [= <-]].
  destruct (keyed (metadata_item key) l) as [kl|e']; simpl; [discriminate|].
  intros [= <-]. now apply IH.
Qed.

Lemma keyed_metadata_missing (key : string) (l : list Batch.t) :
  (exists b, In b l /\ get key (Batch.metadata b) = None) ->
  keyed (metadata_item key) l = Raise KeyError.
Proof.
  intros [b [Hin Hb]]. induction l as [|b' l IH]; simpl; [destruct Hin|].
  unfold metadata_item at 1.
  destruct (get key (Batch.metadata b')) eqn:Hb'; simpl; [|reflexivity].
  destruct Hin as [->|Hin]; [congruence|]. now rewrite (IH Hin).
Qed.

Lemma list_sort_metadata_Raise (key : string) (reverse : bool)
    (l : list Batch.t) (e : exn) :
  list_sort (metadata_item key) reverse l = Raise e ->
  e = KeyError \/ e = TypeError.
Proof.
  unfold list_sort.
  destruct (keyed (metadata_item key) l) as [kl|e'] eqn:Hk; simpl.
  - destruct (sort_keyed reverse kl) as [sl|e''] eqn:Hs; simpl; [discriminate|].
    intros [= <-]. right. eapply sort_keyed_Raise; eassumption.
  - intros [= <-]. left. eapply keyed_metadata_Raise; eassumption.
Qed.

Lemma list_sort_metadata_keys (key : string) (reverse : bool)
    (l l' : list Batch.t) :
  list_sort (metadata_item key) reverse l = Ok l' ->
  Permutation l l' /\
  forall b, In b l -> exists v, get key (Batch.metadata b) = Some v.
Proof.
  intros H. unfold list_sort in H.
  apply bind_Ok_inv in H. destruct H as [kl [Hkl H]].
  apply bind_Ok_inv in H. destruct H as [sl [Hsl [= <-]]].
  destruct (keyed_spec _ _ _ Hkl) as [Hmap Hkeys]. split.
  - rewrite <- Hmap. apply Permutation_map.
    eapply sort_keyed_Permutation; eassumption.
  - intros b Hb. rewrite <- Hmap in Hb. apply in_map_iff in Hb.
    destruct Hb as [y [<- Hy]]. rewrite Forall_forall in Hkeys.
    exists (fst y). apply metadata_item_Ok. now apply Hkeys.
Qed.

Lemma sort_batches_loop_outcome (sorters : list BatchSorter.t) :
  forall l,
    (forall l', sort_batches_loop sorters l = Ok l' ->
       Permutation l l' /\
       forall b sorter, In b l -> In sorter sorters ->
         exists v, get (BatchSorter.key sorter) (Batch.metadata b) = Some v) /\
    (forall e, sort_batches_loop sorters l = Raise e ->
       e = KeyError \/ e = TypeError).
Proof.
  induction sorters as [|sorter rest IH]; simpl; intros l.
  - split; [|discriminate]. intros l' [= <-].
    split; [apply Permutation_refl | intros b s _ []].
  - destruct (list_sort (metadata_item (BatchSorter.key sorter))
                (BatchSorter.reverse sorter) l) as [l1|e1] eqn:H1; simpl.
    + destruct (list_sort_metadata_keys _ _ _ _ H1) as [Hperm Hkeys].
      destruct (IH l1) as [IHok IHraise]. split; [|exact IHraise].
      intros l' Hl'. destruct (IHok l' Hl') as [Hperm' Hkeys'].
      split; [eapply perm_trans; eassumption|].
      intros b s Hb [<-|Hs]; [now apply Hkeys|].
      apply (Hkeys' b s); [|exact Hs].
      eapply Permutation_in; eassumption.
    + split; [discriminate|]. intros e [= <-].
      eapply list_sort_metadata_Raise; eassumption.
Qed.

(** [sort_batches] returns only when every batch holds a value under the
    key of every sorter, and it raises nothing but [KeyError] and
    [TypeError]; a batch without the key of the last sorter, the first to be
    applied, makes it raise [KeyError]. *)
Theorem sort_batches_needs_every_key
    (self : DataAsset.t) (batch_list : list Batch.t) :
  (forall sorted b sorter,
     DataAsset_sort_batches self batch_list = Ok sorted ->
     In b batch_list -> In sorter (DataAsset.order_by self) ->
     exists v, get (BatchSorter.key sorter) (Batch.metadata b) = Some v) /\
  (forall e,
     DataAsset_sort_batches self batch_list = Raise e ->
     e = KeyError \/ e = TypeError) /\
  (forall earlier last b,
     DataAsset.order_by self = earlier ++ [last] ->
     In b batch_list ->
     get (BatchSorter.key last) (Batch.metadata b) = None ->
     DataAsset_sort_batches self batch_list = Raise KeyError).
Proof.
  unfold DataAsset_sort_batches.
  destruct (sort_batches_loop_outcome (rev (DataAsset.order_by self)) batch_list)
    as [Hok Hraise].
  split; [|split].
  - intros sorted b sorter H Hb Hs.
    apply (proj2 (Hok sorted H) b sorter Hb). now apply in_rev in Hs.
  - exact Hraise.
  - intros earlier last b -> Hb Hnone. rewrite rev_app_distr. simpl.
    unfold list_sort. rewrite keyed_metadata_missing; [reflexivity|].
    now exists b.
Qed.

(** A list of at most one batch is never compared: [sort_batches] leaves it
    as it is when the batch holds the keys, whatever the values, [None]
    included. *)
Theorem sort_batches_of_at_most_one_batch
    (self : DataAsset.t) (batch_list : list Batch.t) :
  (List.length batch_list <= 1)%nat ->
  (forall b sorter,
     In b batch_list -> In sorter (DataAsset.order_by self) ->
     exists v, get (BatchSorter.key sorter) (Batch.metadata b) = Some v) ->
  DataAsset_sort_batches self batch_list = Ok batch_list.
Proof.
  intros Hlen Hkeys. unfold DataAsset_sort_batches.
  assert (Hrev : forall b sorter,
            In b batch_list -> In sorter (rev (DataAsset.order_by self)) ->
            exists v, get (BatchSorter.key sorter) (Batch.metadata b) = Some v).
  { intros b s Hb Hs. apply (Hkeys b s Hb). now apply in_rev. }
  clear Hkeys. induction (rev (DataAsset.order_by self)) as [|sorter rest IH];
    simpl; [reflexivity|].
  assert (Hpass : list_sort (metadata_item (BatchSorter.key sorter))
                    (BatchSorter.reverse sorter) batch_list = Ok batch_list).
  { destruct batch_list as [|b [|b' l]]; simpl in Hlen; try lia.
    - reflexivity.
    - unfold list_sort. simpl.
      destruct (Hrev b sorter (or_introl eq_refl) (or_introl eq_refl)) as [v Hv].
      unfold metadata_item. now rewrite Hv. }
  rewrite Hpass. simpl. apply IH.
  intros b s Hb Hs. apply (Hrev b s Hb). now right.
Qed.

Lemma sort_batches_of_at_most_one_batch_witness :
  DataAsset_sort_batches trips_asset [unlabelled_batch] = Ok [unlabelled_batch].
Proof.
  apply (sort_batches_of_at_most_one_batch trips_asset [unlabelled_batch]).
  - simpl. lia.
  - intros b sorter [<-|[]] [<-|[<-|[]]]; simpl; now eexists.
Defined.

Example sort_batches_of_two_unlabelled_batches :
  DataAsset_sort_batches trips_asset [unlabelled_batch; unlabelled_batch] =
  Raise TypeError.
Proof. reflexivity. Qed.

(** ** Sorters given as strings *)

Lemma _batch_sorter_from_str_Raise (sort_key : string) (e : exn) :
  _batch_sorter_from_str sort_key = Raise e ->
  sort_key = EmptyString /\ e = IndexError.
Proof.
  destruct sort_key as [|c rest]; simpl.
  - intros [= <-]. now split.
  - destruct (Ascii.eqb c "-"); [discriminate|].
    destruct (Ascii.eqb c "+"); discriminate.
Qed.

Lemma comprehension_sorters_empty (l : list string) :
  In EmptyString l ->
  comprehension _batch_sorter_from_str l = Raise IndexError.
Proof.
  induction l as [|s l IH]; simpl; [intros []|].
  destruct (_batch_sorter_from_str s) as [sorter|e] eqn:Hs; simpl.
  - intros [->|Hin]; [discriminate|]. now rewrite (IH Hin).
  - intros _. apply _batch_sorter_from_str_Raise in Hs. now destruct Hs as [_ ->].
Qed.

Lemma comprehension_sorters_Ok (l : list string) :
  ~ In EmptyString l ->
  exists sorters,
    comprehension _batch_sorter_from_str l = Ok sorters /\
    Forall2
      (fun s sorter => DataAsset__parse_order_by_sorter (inl s) = inr sorter)
      l sorters.
Proof.
  induction l as [|s l IH]; simpl; intros Hn.
  - exists []. split; constructor.
  - destruct IH as [sorters [Hl Hall]]; [intros Hin; apply Hn; now right|].
    destruct (_batch_sorter_from_str s) as [sorter|e] eqn:Hs; simpl.
    + rewrite Hl. simpl. exists (sorter :: sorters). split; [reflexivity|].
      constructor; [|exact Hall].
      destruct s; simpl; [discriminate|]. simpl in Hs. now rewrite Hs.
    + apply _batch_sorter_from_str_Raise in Hs. destruct Hs as [-> _].
      exfalso. apply Hn. now left.
Qed.

(** [add_sorters] with a list of strings parses each string as the
    validator of [order_by] does and replaces [order_by] by the result,
    leaving the rest of the asset as it is; but it has no guard for the
    empty string, for which it raises [IndexError] where the validator
    raises [ValueError]. A list of sorters is stored as given. *)
Theorem add_sorters_parses_strings_without_guard
    (self : DataAsset.t) (l : list string) :
  (In EmptyString l ->
   DataAsset_add_sorters self (StrList l) = inl (Raised IndexError)) /\
  (~ In EmptyString l ->
   exists self',
     DataAsset_add_sorters self (StrList l) = inr self' /\
     Forall2
       (fun s sorter => DataAsset__parse_order_by_sorter (inl s) = inr sorter)
       l (DataAsset.order_by self') /\
     DataAsset.name self' = DataAsset.name self /\
     DataAsset._datasource self' = DataAsset._datasource self) /\
  DataAsset__parse_order_by_sorter (inl EmptyString) = inl ValueError /\
  (forall sorters,
     DataAsset_add_sorters self (SorterList sorters) =
     inr (set_order_by sorters self)).
Proof.
  split; [|split; [|split]].
  - intros Hin. unfold DataAsset_add_sorters, _batch_sorter_from_list.
    destruct l as [|s l]; [destruct Hin|]. simpl _is_batch_sorter_list.
    simpl _is_str_sorter_list. cbv iota.
    now rewrite (comprehension_sorters_empty _ Hin).
  - intros Hn. destruct (comprehension_sorters_Ok l Hn) as [sorters [Hc Hall]].
    unfold DataAsset_add_sorters, _batch_sorter_from_list.
    destruct l as [|s l].
    + simpl. eexists. split; [reflexivity|]. simpl.
      inversion Hall; subst. repeat split; constructor.
    + simpl _is_batch_sorter_list. simpl _is_str_sorter_list. cbv iota.
      rewrite Hc. simpl. eexists. split; [reflexivity|]. now repeat split.
  - reflexivity.
  - reflexivity.
Qed.

Example add_sorters_example :
  DataAsset_add_sorters zones_asset (StrList ["-year"; "month"; "--day"]) =
  inr (set_order_by
         [ {| BatchSorter.key := "year"; BatchSorter.reverse := true |};
           {| BatchSorter.key := "month"; BatchSorter.reverse := false |};
           {| BatchSorter.key := "-day"; BatchSorter.reverse := true |} ]
         zones_asset).
Proof. reflexivity. Qed.

(** ** The keyword arguments of the execution engine *)

Lemma get_filter_keys {V : Type} (p : string -> bool) (d : dict V) (k : string) :
  get k (filter (fun kv => p (fst kv)) d) = if p k then get k d else None.
Proof.
  induction d as [|[k' v] d IH]; simpl; [now destruct (p k)|].
  destruct (p k') eqn:Hp; simpl.
  - destruct (String.eqb_spec k k') as [->|Hne]; [now rewrite Hp | exact IH].
  - destruct (String.eqb_spec k k') as [->|Hne]; [|exact IH].
    rewrite IH. now rewrite Hp.
Qed.

Lemma keys_filter_keys {V : Type} (p : string -> bool) (d : dict V) :
  keys (filter (fun kv => p (fst kv)) d) = filter p (keys d).
Proof.
  induction d as [|[k' v] d IH]; simpl; [reflexivity|].
  destruct (p k'); simpl; now rewrite IH.
Qed.

(** The constructor of a datasource never hands [name], [type],
    [execution_engine] or [assets] to the execution engine; it hands over
    every other keyword argument, with its value and in the order given. *)
Theorem engine_kwargs_leaves_out_datasource_fields
    {V : Type} (kwargs : dict V) :
  (forall k, In k _excluded_eng_args -> get k (engine_kwargs kwargs) = None) /\
  (forall k, ~ In k _excluded_eng_args ->
     get k (engine_kwargs kwargs) = get k kwargs) /\
  keys (engine_kwargs kwargs) =
  filter (fun k => negb (inb k _excluded_eng_args)) (keys kwargs).
Proof.
  unfold engine_kwargs. split; [|split].
  - intros k Hk. rewrite (get_filter_keys (fun k => negb (inb k _excluded_eng_args))).
    apply inb_In in Hk. now rewrite Hk.
  - intros k Hk. rewrite (get_filter_keys (fun k => negb (inb k _excluded_eng_args))).
    apply inb_false in Hk. now rewrite Hk.
  - apply (keys_filter_keys (fun k => negb (inb k _excluded_eng_args))).
Qed.

(** ** Loading the assets of a configuration *)

Section LoadAssetsFacts.
Variable type_lookup : pyval -> result (dict pyval -> result DataAsset.t).

(** [_load_asset_subtype] returns one asset per entry of the configuration,
    under the key of the entry and in the same order: the asset that the
    constructor looked up for the ["type"] of the entry builds from it. An
    entry without ["type"] keeps it from returning, and what it raises is
    what the loading of one entry raises. *)
Theorem load_asset_subtype_keeps_the_keys (v : dict (dict pyval)) :
  wf v ->
  (forall loaded,
     Datasource__load_asset_subtype type_lookup v = Ok loaded ->
     keys loaded = keys v /\
     forall k config,
       get k v = Some config ->
       exists asset_type_name asset_type asset,
         get "type" config = Some asset_type_name /\
         type_lookup asset_type_name = Ok asset_type /\
         asset_type config = Ok asset /\
         get k loaded = Some asset) /\
  (forall e,
     Datasource__load_asset_subtype type_lookup v = Raise e ->
     exists k config, In (k, config) v /\ load_asset type_lookup k config = Raise e) /\
  (forall k config,
     In (k, config) v -> get "type" config = None ->
     exists e, Datasource__load_asset_subtype type_lookup v = Raise e).
Proof.
  intros Hwf. unfold Datasource__load_asset_subtype. split; [|split].
  - intros loaded H.
    pose proof (for_items_results _ _ _ Hwf H) as Hres.
    split; [eapply results_of_keys; eassumption|].
    intros k config Hk.
    destruct (results_of_get _ _ _ _ _ Hres Hk) as [asset [Hload Hget]].
    unfold load_asset in Hload.
    destruct (get "type" config) as [name|]; [|discriminate]. simpl in Hload.
    destruct (type_lookup name) as [asset_type|] eqn:Hlookup; [|discriminate].
    simpl in Hload. now exists name, asset_type, asset.
  - intros e. apply for_items_Raise.
  - intros k config Hin Hnone.
    destruct (for_items (load_asset type_lookup) v []) as [loaded|e] eqn:H;
      [|now exists e].
    pose proof (for_items_results _ _ _ Hwf H) as Hres.
    destruct (results_of_get _ _ _ _ _ Hres (In_get _ _ _ Hwf Hin))
      as [asset [Hload _]].
    unfold load_asset in Hload. now rewrite Hnone in Hload.
Qed.

End LoadAssetsFacts.

Lemma load_asset_subtype_keeps_the_keys_witness :
  (forall loaded,
     Datasource__load_asset_subtype example_type_lookup example_assets_config
       = Ok loaded ->
     keys loaded = keys example_assets_config /\
     forall k config,
       get k example_assets_config = Some config ->
       exists asset_type_name asset_type asset,
         get "type" config = Some asset_type_name /\
         example_type_lookup asset_type_name = Ok asset_type /\
         asset_type config = Ok asset /\
         get k loaded = Some asset) /\
  (forall e,
     Datasource__load_asset_subtype example_type_lookup example_assets_config
       = Raise e ->
     exists k config,
       In (k, config) example_assets_config /\
       load_asset example_type_lookup k config = Raise e) /\
  (forall k config,
     In (k, config) example_assets_config -> get "type" config = None ->
     exists e,
       Datasource__load_asset_subtype example_type_lookup example_assets_config
       = Raise e).
Proof.
  apply (load_asset_subtype_keeps_the_keys
           example_type_lookup example_assets_config).
  apply wfb_wf. reflexivity.
Defined.

(** ** Ids that coincide *)

Lemma append_assoc (a b c : string) :
  ((a ++ b) ++ c = a ++ (b ++ c))%string.
Proof. induction a as [|x a IH]; simpl; [reflexivity | now rewrite IH]. Qed.

Lemma concat_cons2 (sep a b : string) (l : list string) :
  String.concat sep (a :: b :: l) =
  (a ++ sep ++ String.concat sep (b :: l))%string.
Proof. reflexivity. Qed.

(** The id does not tell the datasource from the asset: a ["-"] in a name
    reads as the separator, so the datasource ["x-y"] with the asset ["z"]
    and the datasource ["x"] with the asset ["y-z"] give every batch
    request the same id. Nor does it tell an integer option from the string
    of its digits. *)
Theorem batch_ids_coincide
    (ds1 ds2 : Datasource.t) (asset1 asset2 : DataAsset.t)
    (x y z : string) (batch_request : BatchRequest.t) :
  Datasource.name ds1 = (x ++ "-" ++ y)%string ->
  DataAsset.name asset1 = z ->
  Datasource.name ds2 = x ->
  DataAsset.name asset2 = (y ++ "-" ++ z)%string ->
  Batch__set_id ds1 asset1 batch_request =
  Batch__set_id ds2 asset2 batch_request /\
  (forall k n before after,
     BatchRequest.options batch_request = before ++ (k, VInt n) :: after ->
     Batch__set_id ds1 asset1 batch_request =
     Batch__set_id ds1 asset1
       {| BatchRequest.datasource_name :=
            BatchRequest.datasource_name batch_request;
          BatchRequest.data_asset_name :=
            BatchRequest.data_asset_name batch_request;
          BatchRequest.options :=
            before ++ (k, VStr (py_str (VInt n))) :: after |}).
Proof.
  intros H1 H2 H3 H4. split.
  - rewrite !Batch__set_id_segments, H1, H2, H3, H4.
    rewrite !concat_cons2.
    destruct (map option_segment (BatchRequest.options batch_request));
      simpl String.concat; rewrite !append_assoc; reflexivity.
  - intros k n before after Hopts.
    rewrite !Batch__set_id_segments. simpl BatchRequest.options.
    rewrite Hopts, !map_app. reflexivity.
Qed.

Lemma batch_ids_coincide_witness :
  Batch__set_id warehouse_eu trips_asset
    (example_request [("year", VInt 2020)]) =
  Batch__set_id warehouse eu_trips_asset
    (example_request [("year", VInt 2020)]) /\
  (forall k n before after,
     BatchRequest.options (example_request [("year", VInt 2020)])
       = before ++ (k, VInt n) :: after ->
     Batch__set_id warehouse_eu trips_asset
       (example_request [("year", VInt 2020)]) =
     Batch__set_id warehouse_eu trips_asset
       {| BatchRequest.datasource_name :=
            BatchRequest.datasource_name
              (example_request [("year", VInt 2020)]);
          BatchRequest.data_asset_name :=
            BatchRequest.data_asset_name
              (example_request [("year", VInt 2020)]);
          BatchRequest.options :=
            before ++ (k, VStr (py_str (VInt n))) :: after |}).
Proof.
  apply (batch_ids_coincide warehouse_eu warehouse trips_asset eu_trips_asset
           "warehouse" "eu" "trips");
    reflexivity.
Defined.

End InterfacesMore.

(* ================================================================== *)
(** * Further properties of the metric and of its dependencies *)

Section ProfilerMore.
Import Profiler.
Local Open Scope Q_scope.

Lemma find_col_data_stats_absent (ds : list data_stat) (col : string) :
  (forall d, In d ds -> column_name d <> col) ->
  find_col_data_stats ds col = [].
Proof.
  induction ds as [|d ds IH]; simpl; intros H; [reflexivity|].
  destruct (String.eqb_spec (column_name d) col) as [E|_].
  - exfalso. exact (H d (or_introl eq_refl) E).
  - apply IH. intros d' Hd'. apply H. now right.
Qed.

Lemma results_of_constant {A B : Type} (f : string -> A -> result B) (b : B)
    (items : dict A) (rs : dict B) :
  (forall k x, f k x = Ok b) ->
  results_of f items rs -> rs = map (fun kx => (fst kx, b)) items.
Proof.
  intros Hf. unfold results_of.
  induction 1 as [|[k x] [k' r] items rs [Hk Hr] _ IH]; simpl; [reflexivity|].
  simpl in Hk, Hr. rewrite Hf in Hr. injection Hr as <-. subst k'.
  now rewrite IH.
Qed.

(** The diff statistics of a column are those of the first element of
    [data_stats] that names it. When no element names the column, every
    statistic asked of it is reported as not found and nothing is
    raised. *)
Theorem statistics_come_from_first_entry_of_column
    (before after : list data_stat) (d : data_stat) (col : string)
    (stats : dict bounds) :
  wf stats ->
  (forall d', In d' before -> column_name d' <> col) ->
  (column_name d = col ->
   find_col_data_stats (before ++ d :: after) col = statistics d) /\
  stats_loop (find_col_data_stats before col) stats [] =
  Ok (map (fun kv => (fst kv, StatMsg "Statistic requested was not found."))
        stats).
Proof.
  intros Hwf Hbefore. split.
  - intros Hd. induction before as [|d' before IH]; simpl.
    + now rewrite Hd, String.eqb_refl.
    + destruct (String.eqb_spec (column_name d') col) as [E|_].
      * exfalso. exact (Hbefore d' (or_introl eq_refl) E).
      * apply IH. intros d'' Hd''. apply Hbefore. now right.
  - rewrite (find_col_data_stats_absent before col Hbefore).
    unfold stats_loop.
    assert (Hf : forall k b, check_stat [] k b =
                   Ok (StatMsg "Statistic requested was not found."))
      by reflexivity.
    destruct (for_items_returns (check_stat []) stats [])
      as [res Hres].
    { intros k b _. eexists. apply Hf. }
    rewrite Hres. f_equal.
    apply (results_of_constant (check_stat [])); [exact Hf|].
    now apply for_items_results.
Qed.

Lemma statistics_come_from_first_entry_of_column_witness :
  (column_name
     {| column_name := "by_2"; statistics := [("min", DNum 2)] |} = "by_2" ->
   find_col_data_stats
     ([ {| column_name := "by_5"; statistics := [("min", DNum 5)] |} ]
      ++ {| column_name := "by_2"; statistics := [("min", DNum 2)] |}
      :: [ {| column_name := "by_2"; statistics := [("min", DNum 9)] |} ])
     "by_2" =
   statistics {| column_name := "by_2"; statistics := [("min", DNum 2)] |}) /\
  stats_loop
    (find_col_data_stats
       [ {| column_name := "by_5"; statistics := [("min", DNum 5)] |} ] "by_2")
    [("min", bnd 0 1); ("max", bnd 0 1)] [] =
  Ok (map (fun kv => (fst kv, StatMsg "Statistic requested was not found."))
        [("min", bnd 0 1); ("max", bnd 0 1)]).
Proof.
  apply (statistics_come_from_first_entry_of_column
           [ {| column_name := "by_5"; statistics := [("min", DNum 5)] |} ]
           [ {| column_name := "by_2"; statistics := [("min", DNum 9)] |} ]
           {| column_name := "by_2"; statistics := [("min", DNum 2)] |}
           "by_2" [("min", bnd 0 1); ("max", bnd 0 1)]).
  - apply wfb_wf. reflexivity.
  - intros d' [<-|[]]. discriminate.
Defined.

End ProfilerMore.

Section DependenciesFacts.
Import Dependencies.
Context {D V : Type}.

(** For the metric of the provider, the dependencies hold the two metrics
    that [_pandas] reads, ["data_profiler.profile_diff"] and
    ["data_profiler.profile_numeric_columns"], each with the domain and
    value keyword arguments of the metric itself, and every other dependency
    of the parent class as it was; for a metric of another name the
    dependencies of the parent class are returned as they are. *)
Theorem evaluation_dependencies_of_the_metric
    (super_dependencies : dict (MetricConfiguration D V))
    (metric : MetricConfiguration D V) :
  (metric_name metric = provider_metric_name ->
   get "data_profiler.profile_diff"
     (_get_evaluation_dependencies super_dependencies metric) =
   Some {| metric_name := "data_profiler.profile_diff";
           metric_domain_kwargs := metric_domain_kwargs metric;
           metric_value_kwargs := metric_value_kwargs metric |} /\
   get "data_profiler.profile_numeric_columns"
     (_get_evaluation_dependencies super_dependencies metric) =
   Some {| metric_name := "data_profiler.profile_numeric_columns";
           metric_domain_kwargs := metric_domain_kwargs metric;
           metric_value_kwargs := metric_value_kwargs metric |} /\
   forall name,
     name <> "data_profiler.profile_diff"%string ->
     name <> "data_profiler.profile_numeric_columns"%string ->
     get name (_get_evaluation_dependencies super_dependencies metric) =
     get name super_dependencies) /\
  (metric_name metric <> provider_metric_name ->
   _get_evaluation_dependencies super_dependencies metric = super_dependencies).
Proof.
  unfold _get_evaluation_dependencies. split.
  - intros ->. rewrite String.eqb_refl. split; [|split].
    + rewrite get_set_neq by discriminate. apply get_set_eq.
    + apply get_set_eq.
    + intros name H1 H2. rewrite !get_set_neq by congruence. reflexivity.
  - intros Hne. apply String.eqb_neq in Hne. now rewrite Hne.
Qed.

End DependenciesFacts.

(* ================================================================== *)
(** * Properties of the test runner *)

Section TasksFacts.
Import Tasks.

Local Ltac not_in_list H :=
  simpl in H;
  repeat (destruct H as [H|H]; [discriminate|]);
  try contradiction.

(** The command of [tests] is a [pytest] command with the five fixed
    leading arguments. Unless markers are ignored, it selects by [-m] the
    marker expression of the arguments, in which asking for integration
    tests overrides [unit]. It carries [--timeout] exactly when unit tests
    are run, markers are not ignored and the plugin is installed: never for
    integration tests. *)
Theorem tests_selects_markers_and_timeout
    (unit integration ignore_markers ci html cloud : bool)
    (slowest : Z) (timeout : string) (package : option string)
    (full_cov pytest_timeout_installed : bool) :
  let cmds :=
    tests_cmds unit integration ignore_markers ci html cloud slowest timeout
      package full_cov pytest_timeout_installed in
  (exists cov_param rest,
     cmds =
     [ "pytest";
       ("--durations=" ++ NilZero.string_of_int (Z.to_int slowest))%string;
       cov_param; "--cov-report term"; "-vv" ] ++ rest /\
     (ignore_markers = false ->
      exists rest',
        rest =
        "-m" :: ("'" ++ marker_expression unit integration ++ "'")%string
        :: rest')) /\
  (ignore_markers = true -> ~ In "-m" cmds) /\
  (In ("--timeout=" ++ timeout)%string cmds <->
   unit && negb integration && negb ignore_markers && pytest_timeout_installed
   = true).
Proof.
  assert (Hpkg : package = None \/ package = Some EmptyString \/
                 exists c rest, package = Some (String c rest)).
  { destruct package as [[|c rest]|]; eauto. }
  intros cmds. subst cmds. unfold tests_cmds, tests_markers, marker_expression.
  destruct Hpkg as [->|[->|[c [rest ->]]]];
    destruct unit, integration, ignore_markers, ci, html, cloud, full_cov,
      pytest_timeout_installed;
    cbn -[NilZero.string_of_int Z.to_int replace_dots];
    (split; [eexists; eexists; split; [reflexivity|];
             first [discriminate | intros _; eexists; reflexivity]|]);
    (split; [first [discriminate | intros _ H; not_in_list H]|]);
    (split; [first [reflexivity | intros H; not_in_list H]
            | first [discriminate | intros _; simpl; tauto]]).
Qed.

Example tests_default_command :
  tests true false false false false true 5 "2.0" None false true =
  "pytest --durations=5 --cov=great_expectations --cov-report term -vv -m 'unit' --timeout=2.0 --cloud".
Proof. reflexivity. Qed.

Example tests_integration_command :
  tests true true false true false true 5 "2.0" (Some "datasource.fluent")
    false true =
  "pytest --durations=5 --cov=great_expectations/datasource/fluent --cov-report term -vv -m 'integration and not unit' --cloud --cov-report xml tests/datasource/fluent".
Proof. reflexivity. Qed.

End TasksFacts.
